(** * GraphRAG HTTP facade ([backend/ragtest/main.py]): model and properties

    The module is a FastAPI application with four search endpoints.  Each
    endpoint first tries the in-process engine ([graphrag.api]) and falls
    back to the [graphrag query] command line tool.  This development embeds

    - the context normalizer ([recursively_convert], [process_context_data]),
    - the CLI bridge ([execute_cli_search]) with the string methods it uses,
    - the four handlers and the compatibility endpoint [query_get],

    and proves the properties the specification states about them.

    Python values are modelled by the inductive [pyobj]; text ([str]) is a
    list of Unicode code points; the handlers run in a small monad that
    threads the log of external calls and propagates raised exceptions. *)

From Stdlib Require Import List ZArith NArith Bool Lia.
From Stdlib Require String Ascii DecimalString PrimFloat.
From Equations Require Import Equations.
From Equations.Prop Require Import Logic.
Import ListNotations.
Import String.StringSyntax.
Delimit Scope string_scope with string.

(* ===================================================================== *)
(** * Text *)
(* ===================================================================== *)

Module Text.

(** A Python [str] is a sequence of code points. *)
Definition char := N.
Definition str := list char.

(** A literal of the source, written as a Rocq string of ASCII characters. *)
Definition lit (s : String.string) : str :=
  map Ascii.N_of_ascii (String.list_ascii_of_string s).
Arguments lit s%_string.

(** The line feed, ["\n"]. *)
Definition LF : char := 10%N.

Local Open Scope N_scope.

(** [c.isspace()] for one code point, as CPython's [_PyUnicode_IsWhitespace]
    decides it: U+0009..U+000D, U+001C..U+0020, U+0085, U+00A0, U+1680,
    U+2000..U+200A, U+2028, U+2029, U+202F, U+205F, U+3000. *)
Definition isspace (c : char) : bool :=
  ((9 <=? c) && (c <=? 13)) || ((28 <=? c) && (c <=? 32))
  || (c =? 133) || (c =? 160) || (c =? 5760)
  || ((8192 <=? c) && (c <=? 8202))
  || (c =? 8232) || (c =? 8233) || (c =? 8239) || (c =? 8287) || (c =? 12288).

Local Close Scope N_scope.

(** [s.lstrip()]: drop the leading white space. *)
Fixpoint lstrip (s : str) : str :=
  match s with
  | [] => []
  | c :: s' => if isspace c then lstrip s' else s
  end.

(** [s.rstrip()]: drop the trailing white space. *)
Fixpoint rstrip (s : str) : str :=
  match s with
  | [] => []
  | c :: s' =>
      match rstrip s' with
      | [] => if isspace c then [] else [c]
      | r => c :: r
      end
  end.

(** [s.strip()] *)
Definition strip (s : str) : str := rstrip (lstrip s).

(** [s.startswith(p)] *)
Fixpoint startswith (p s : str) : bool :=
  match p, s with
  | [], _ => true
  | _ :: _, [] => false
  | a :: p', b :: s' => N.eqb a b && startswith p' s'
  end.

(** [sub in s] *)
Fixpoint contains (sub s : str) : bool :=
  startswith sub s
  || match s with
     | [] => false
     | _ :: s' => contains sub s'
     end.

(** [s.partition(sep)] when [sep] occurs in [s]: the text before the first
    occurrence and the text after it; [None] when [sep] does not occur. *)
Fixpoint cut (sep s : str) : option (str * str) :=
  if startswith sep s then Some ([], skipn (length sep) s)
  else match s with
       | [] => None
       | c :: s' =>
           match cut sep s' with
           | Some (before, after) => Some (c :: before, after)
           | None => None
           end
       end.

Lemma startswith_app (p s : str) :
  startswith p s = true -> s = p ++ skipn (length p) s.
Proof.
  revert s; induction p as [|a p IH]; intros [|b s]; simpl; try easy.
  intros H. apply andb_prop in H as [Hab Hps].
  apply N.eqb_eq in Hab. subst b. f_equal. now apply IH.
Qed.

Lemma startswith_refl_app (p r : str) : startswith p (p ++ r) = true.
Proof.
  induction p as [|a p IH]; simpl; [reflexivity|].
  now rewrite N.eqb_refl, IH.
Qed.

Lemma cut_app (sep s before after : str) :
  cut sep s = Some (before, after) -> s = before ++ sep ++ after.
Proof.
  revert before after; induction s as [|c s IH]; intros before after; simpl.
  - destruct (startswith sep []) eqn:E; [|discriminate].
    intros [= <- <-]. destruct sep; [reflexivity | discriminate].
  - destruct (startswith sep (c :: s)) eqn:E.
    + intros [= <- <-]. simpl. now apply startswith_app.
    + destruct (cut sep s) as [[b a]|] eqn:C; [|discriminate].
      intros [= <- <-]. simpl. f_equal. now apply IH.
Qed.

Lemma cut_contains (sep s : str) :
  contains sep s = match cut sep s with Some _ => true | None => false end.
Proof.
  induction s as [|c s IH]; simpl.
  - destruct (startswith sep []); reflexivity.
  - destruct (startswith sep (c :: s)); simpl; [reflexivity|].
    rewrite IH. destruct (cut sep s) as [[b a]|]; reflexivity.
Qed.

Lemma cut_shorter (c : char) (sep s before after : str) :
  cut (c :: sep) s = Some (before, after) -> length after < length s.
Proof.
  intros H. apply cut_app in H. subst s.
  rewrite !length_app. simpl. lia.
Qed.

(** [s.split(sep)]: the pieces of [s] between the successive occurrences of
    [sep], scanned from the left.  Python raises [ValueError] on an empty
    separator; the program only splits on the constants ["SUCCESS:"] and
    ["\n"], and the model returns [[s]] for the empty separator. *)
Equations split (sep s : str) : list str by wf (length s) lt :=
  split [] s := [s];
  split (c :: sep) s with inspect (cut (c :: sep) s) := {
    | exist _ None _ := [s];
    | exist _ (Some (before, after)) H := before :: split (c :: sep) after }.
Next Obligation.
  eapply cut_shorter; eassumption.
Qed.

(** [sep.join(parts)] *)
Fixpoint join (sep : str) (parts : list str) : str :=
  match parts with
  | [] => []
  | [p] => p
  | p :: rest => p ++ sep ++ join sep rest
  end.

(** No proper suffix of [m] (other than the empty one) is a prefix of [m]. *)
Definition unbordered (m : str) : bool :=
  forallb (fun k => negb (startswith (skipn k m) m)) (seq 1 (length m - 1)).

(** The text has no white space. *)
Definition nospace (m : str) : bool := forallb (fun c => negb (isspace c)) m.

End Text.

(* ===================================================================== *)
(** * Python values and the context normalizer *)
(* ===================================================================== *)

Module Py.
Import Text.

(** Values without parts the normalizer can look into.  [SOpaque] stands for
    an object of any other class (a set, a time stamp, an array, ...), which
    neither the normalizer nor [json.dumps] knows. *)
Inductive scalar : Type :=
| SNone
| SBool (b : bool)
| SInt (z : Z)
| SFloat (f : PrimFloat.float)
| SStr (s : str)
| SOpaque (id : N).

(** A table: column labels and rows of cells. *)
Record Frame (cell : Type) : Type := mkDataFrame {
  columns : list str;
  rows : list (list cell)
}.
Arguments mkDataFrame {cell} columns rows.
Arguments columns {cell} f.
Arguments rows {cell} f.

(** The values the program handles.  A [dict] keeps its items in insertion
    order, one item per key.  The cells of a table are values like any
    other: a cell of [object] type can hold a list, a dict or another
    table. *)
#[warnings="-register-all"]
Inductive pyobj : Type :=
| PyScalar (v : scalar)
| PyList (items : list pyobj)
| PyDict (items : list (str * pyobj))
| PyDataFrame (df : Frame pyobj).

(** A [pandas.DataFrame] *)
Definition DataFrame : Type := Frame pyobj.

Definition PyNone : pyobj := PyScalar SNone.
Definition PyBool (b : bool) : pyobj := PyScalar (SBool b).
Definition PyFloat (f : PrimFloat.float) : pyobj := PyScalar (SFloat f).
Definition PyStr (s : str) : pyobj := PyScalar (SStr s).

Definition dict := list (str * pyobj).

(** [a == b] on text *)
Fixpoint str_eqb (a b : str) : bool :=
  match a, b with
  | [], [] => true
  | x :: a', y :: b' => N.eqb x y && str_eqb a' b'
  | _, _ => false
  end.

(** [d[k]], [None] for a [KeyError] *)
Fixpoint dict_get (d : dict) (k : str) : option pyobj :=
  match d with
  | [] => None
  | (k', v) :: d' => if str_eqb k' k then Some v else dict_get d' k
  end.

(** [d[k] = v]: the item of [k] is replaced where it stands, a new key goes
    to the end. *)
Fixpoint dict_set (d : dict) (k : str) (v : pyobj) : dict :=
  match d with
  | [] => [(k, v)]
  | (k', v') :: d' =>
      if str_eqb k' k then (k', v) :: d' else (k', v') :: dict_set d' k v
  end.

(** [dict(pairs)] *)
Definition dict_of (pairs : list (str * pyobj)) : dict :=
  fold_left (fun d kv => dict_set d (fst kv) (snd kv)) pairs [].

(** [list(d.keys())] *)
Definition keys (d : dict) : list str := map fst d.

(** [df.to_dict(orient="records")]: one [dict(zip(columns, row))] per row,
    the cells handed over as they are. *)
Definition to_dict_records (df : DataFrame) : pyobj :=
  PyList
    (map (fun row => PyDict (dict_of (combine (columns df) row)))
         (rows df)).

(** [recursively_convert] *)
Fixpoint recursively_convert (obj : pyobj) : pyobj :=
  match obj with
  | PyDataFrame df => to_dict_records df
  | PyList items => PyList (map recursively_convert items)
  | PyDict items =>
      PyDict (map (fun kv => (fst kv, recursively_convert (snd kv))) items)
  | PyScalar _ => obj
  end.

(** [process_context_data] *)
Definition process_context_data (context_data : pyobj) : pyobj :=
  match context_data with
  | PyScalar (SStr _) => context_data
  | PyDataFrame df => to_dict_records df
  | PyList _ | PyDict _ => recursively_convert context_data
  | PyScalar _ => PyNone
  end.

(** Values made of JSON primitives, sequences and mappings only. *)
Definition json_scalar (v : scalar) : bool :=
  match v with
  | SOpaque _ => false
  | _ => true
  end.

Fixpoint json_only (v : pyobj) : bool :=
  match v with
  | PyScalar a => json_scalar a
  | PyList items => forallb json_only items
  | PyDict items => forallb (fun kv => json_only (snd kv)) items
  | PyDataFrame _ => false
  end.

(** No [DataFrame] can be reached through sequences and mappings. *)
Fixpoint no_tabular (v : pyobj) : bool :=
  match v with
  | PyScalar _ => true
  | PyList items => forallb no_tabular items
  | PyDict items => forallb (fun kv => no_tabular (snd kv)) items
  | PyDataFrame _ => false
  end.

(** No table has a table in reach inside its cells; tables themselves may be
    anywhere in lists and dicts. *)
Fixpoint flat_tables (v : pyobj) : bool :=
  match v with
  | PyScalar _ => true
  | PyList items => forallb flat_tables items
  | PyDict items => forallb (fun kv => flat_tables (snd kv)) items
  | PyDataFrame df => forallb (forallb no_tabular) (rows df)
  end.

(** [v[k1][k2]...] through nested dicts, [None] when a key is missing or a
    value on the way is not a dict. *)
Fixpoint lookup_path (v : pyobj) (path : list str) : option pyobj :=
  match path with
  | [] => Some v
  | k :: path' =>
      match v with
      | PyDict items =>
          match dict_get items k with
          | Some x => lookup_path x path'
          | None => None
          end
      | _ => None
      end
  end.

(** The normalizer as the specification words it: one recursive function
    with five cases, the last one mapping every other value to the null
    marker. *)
Fixpoint normalize_spec (v : pyobj) : pyobj :=
  match v with
  | PyScalar (SStr _) => v
  | PyDataFrame df => to_dict_records df
  | PyList items => PyList (map normalize_spec items)
  | PyDict items => PyDict (map (fun kv => (fst kv, normalize_spec (snd kv))) items)
  | PyScalar _ => PyNone
  end.

End Py.

(* ===================================================================== *)
(** * The application: CLI bridge and handlers *)
(* ===================================================================== *)

Module App.
Import Text Py.

(** ** Configuration *)

Definition PROJECT_DIRECTORY : str := lit ".".
Definition COMMUNITY_LEVEL : Z := 2.
Definition CLAIM_EXTRACTION_ENABLED : bool := false.
Definition RESPONSE_TYPE : str := lit "Multiple Paragraphs".

(** ** The world outside the module *)

(** The four search functions of [graphrag.api]. *)
Inductive variant : Type := Global | Local | Drift | Basic.

(** What a call of an external collaborator does inside a [try] block whose
    handler is [except Exception as e]: it returns a value, or it raises [e],
    of which the handler uses [str(e)] at most. *)
Inductive attempt (A : Type) : Type :=
| Returned (a : A)
| Raised (str_e : str).
Arguments Returned {A} a.
Arguments Raised {A} str_e.

(** The object [subprocess.run(..., capture_output=True, text=True)] returns. *)
Record CompletedProcess : Type := mkCompletedProcess {
  returncode : Z;
  stdout : str;
  stderr : str
}.

(** The process-wide flags and the collaborators' behaviour.
    [GRAPHRAG_API_AVAILABLE] is set by the import at the top of the module,
    [data_loaded] is [app.state.data_loaded] as [lifespan] left it; [api v q]
    is what awaiting the engine's search [v] on the loaded tables with query
    [q] does (it returns the pair [(response, context)]); [subprocess_run cmd]
    is what running [cmd] does; [time_time k] is the [k]-th reading of the
    clock; [json_renders c] tells whether [json.dumps] accepts [c]. *)
Record world : Type := mkWorld {
  GRAPHRAG_API_AVAILABLE : bool;
  data_loaded : bool;
  api : variant -> str -> attempt (pyobj * pyobj);
  subprocess_run : list str -> attempt CompletedProcess;
  time_time : nat -> PrimFloat.float;
  json_renders : pyobj -> bool
}.

(** The calls a handler makes to its collaborators, in order. *)
Inductive event : Type :=
| ApiCall (v : variant) (query : str)
| SubprocessRun (cmd : list str) (timeout : Z) (cwd : str).

Record state : Type := mkState {
  trace : list event;
  clock_reads : nat
}.

Definition initial : state := mkState [] 0.

(** ** Handlers as computations *)

(** The exceptions the module itself raises or can meet outside a [try]. *)
Inductive exn : Type :=
| HTTPException (status_code : Z) (detail : pyobj)
| KeyError (key : str)
| ValueError
| JSONEncodeError.

Inductive outcome (A : Type) : Type :=
| Returns (a : A)
| Raises (e : exn).
Arguments Returns {A} a.
Arguments Raises {A} e.

Definition M (A : Type) : Type := state -> outcome A * state.

Definition ret {A} (a : A) : M A := fun st => (Returns a, st).

Definition bind {A B} (m : M A) (k : A -> M B) : M B :=
  fun st =>
    match m st with
    | (Returns a, st') => k a st'
    | (Raises e, st') => (Raises e, st')
    end.

Definition raise {A} (e : exn) : M A := fun st => (Raises e, st).

Notation "x <- m ;; k" := (bind m (fun x => k))
  (at level 61, m at next level, right associativity).

(** [try: body except Exception: ...] followed by [rest]: every exception of
    the model is an [Exception]; the handlers here only log what they catch
    and fall through to the code after the [try] statement. *)
Definition try_except {A} (body rest : M A) : M A :=
  fun st =>
    match body st with
    | (Returns a, st') => (Returns a, st')
    | (Raises _, st') => rest st'
    end.

Definition emit (ev : event) : M unit :=
  fun st => (Returns tt, mkState (trace st ++ [ev]) (clock_reads st)).

(** [d[k]] *)
Definition getitem (d : dict) (k : str) : M pyobj :=
  match dict_get d k with
  | Some v => ret v
  | None => raise (KeyError k)
  end.

(** [not v].  A [DataFrame] has no truth value (pandas raises [ValueError]);
    an object of a class the model does not look into is true, as objects are
    unless their class says otherwise. *)
Definition py_not (v : pyobj) : M bool :=
  match v with
  | PyScalar SNone => ret true
  | PyScalar (SBool b) => ret (negb b)
  | PyScalar (SInt z) => ret (Z.eqb z 0)
  | PyScalar (SFloat f) => ret (PrimFloat.eqb f PrimFloat.zero)
  | PyScalar (SStr s) => ret (match s with [] => true | _ => false end)
  | PyScalar (SOpaque _) => ret false
  | PyList items => ret (match items with [] => true | _ => false end)
  | PyDict items => ret (match items with [] => true | _ => false end)
  | PyDataFrame _ => raise ValueError
  end.

(** [str(n)] for an [int] *)
Definition str_of_int (n : Z) : str :=
  lit (DecimalString.NilEmpty.string_of_int (Z.to_int n)).

(** A response of the HTTP layer with status 200 and a JSON body. *)
Inductive Response : Type := JSONResponse (content : pyobj).

Section WithWorld.

Variable w : world.

(** [time.time()] *)
Definition time_ : M PrimFloat.float :=
  fun st =>
    (Returns (time_time w (clock_reads st)),
     mkState (trace st) (S (clock_reads st))).

(** [subprocess.run(cmd, capture_output=True, text=True, timeout=..., cwd=...)]
    inside [try ... except Exception as e]. *)
Definition run (cmd : list str) (timeout : Z) (cwd : str)
  : M (attempt CompletedProcess) :=
  _ <- emit (SubprocessRun cmd timeout cwd) ;;
  ret (subprocess_run w cmd).

(** [await api.<v>_search(..., query=query)] inside
    [try ... except Exception as e]. *)
Definition await_api (v : variant) (query : str) : M (attempt (pyobj * pyobj)) :=
  _ <- emit (ApiCall v query) ;;
  ret (api w v query).

(** [JSONResponse(content=c)]: the response serializes [c] with
    [json.dumps] as it is built, and raises what [json.dumps] raises
    ([TypeError], [ValueError]) when that fails. *)
Definition json_response (content : pyobj) : M Response :=
  if json_renders w content then ret (JSONResponse content)
  else raise JSONEncodeError.

(** ** CLI bridge *)

Definition SUCCESS : str := lit "SUCCESS:".
Definition LOCAL_HEADER : str := lit "Local Search Response:".
Definition GLOBAL_HEADER : str := lit "Global Search Response:".

(** The keyword arguments [execute_cli_search] looks at. *)
Record Kwargs : Type := mkKwargs {
  community_level : option Z;
  response_type : option str
}.

(** The block of [execute_cli_search] under [# Extract clean response], as a
    function of the stripped standard output. *)
Definition extract_clean_response (response_text : str) : str :=
  if contains SUCCESS response_text then
    let response_parts := split SUCCESS response_text in
    if Nat.ltb 1 (length response_parts) then
      let response_text := strip (last response_parts []) in
      if startswith LOCAL_HEADER response_text
         || startswith GLOBAL_HEADER response_text
      then strip (join [LF] (tl (split [LF] response_text)))
      else response_text
    else response_text
  else response_text.

(** The command line [execute_cli_search] builds in [cmd]. *)
Definition cli_command (query method : str) (kwargs : Kwargs) : list str :=
  let cmd := [lit "graphrag"; lit "query";
              lit "--root"; lit ".";
              lit "--method"; method;
              lit "--query"; query] in
  let cmd := match community_level kwargs with
             | Some n => cmd ++ [lit "--community_level"; str_of_int n]
             | None => cmd
             end in
  match response_type kwargs with
  | Some r => cmd ++ [lit "--response_type"; r]
  | None => cmd
  end.

(** [execute_cli_search] *)
Definition execute_cli_search (query method : str) (kwargs : Kwargs) : M dict :=
  start_time <- time_ ;;
  let cmd := cli_command query method kwargs in
  attempted <- run cmd 300 (lit ".") ;;
  match attempted with
  | Returned result =>
      now <- time_ ;;
      let execution_time := PrimFloat.sub now start_time in
      if Z.eqb (returncode result) 0 then
        let response_text := strip (stdout result) in
        let response_text := extract_clean_response response_text in
        ret [(lit "response", PyStr response_text);
             (lit "context_data",
              PyDict [(lit "method", PyStr (lit "cli_fallback"));
                      (lit "execution_time", PyFloat execution_time)]);
             (lit "success", PyBool true);
             (lit "method_used", PyStr (lit "cli"))]
      else
        ret [(lit "response", PyStr (lit "CLI Error: " ++ stderr result));
             (lit "context_data", PyDict [(lit "error", PyStr (stderr result))]);
             (lit "success", PyBool false);
             (lit "method_used", PyStr (lit "cli"))]
  | Raised str_e =>
      ret [(lit "response", PyStr (lit "CLI Exception: " ++ str_e));
           (lit "context_data", PyDict [(lit "error", PyStr str_e)]);
           (lit "success", PyBool false);
           (lit "method_used", PyStr (lit "cli"))]
  end.

(** ** Search handlers *)

(** [community_level=COMMUNITY_LEVEL, response_type=RESPONSE_TYPE] *)
Definition handler_kwargs : Kwargs :=
  mkKwargs (Some COMMUNITY_LEVEL) (Some RESPONSE_TYPE).

(** The dict a handler builds after the engine returned. *)
Definition response_dict (response context : pyobj) : pyobj :=
  PyDict [(lit "response", response);
          (lit "context_data", process_context_data context);
          (lit "method_used", PyStr (lit "api"));
          (lit "success", PyBool true)].

(** [global_search] *)
Definition global_search (query : str) : M Response :=
  let cli_fallback : M Response :=
    result <- execute_cli_search query (lit "global") handler_kwargs ;;
    success <- getitem result (lit "success") ;;
    failed <- py_not success ;;
    if failed : bool then
      detail <- getitem result (lit "response") ;;
      raise (HTTPException 500 detail)
    else json_response (PyDict result) in
  if GRAPHRAG_API_AVAILABLE w && data_loaded w then
    attempted <- await_api Global query ;;
    match attempted with
    | Returned (response, context) =>
        try_except (json_response (response_dict response context))
                   cli_fallback
    | Raised _ => cli_fallback
    end
  else cli_fallback.

(** [local_search] *)
Definition local_search (query : str) : M Response :=
  let cli_fallback : M Response :=
    result <- execute_cli_search query (lit "local") handler_kwargs ;;
    success <- getitem result (lit "success") ;;
    failed <- py_not success ;;
    if failed : bool then
      detail <- getitem result (lit "response") ;;
      raise (HTTPException 500 detail)
    else json_response (PyDict result) in
  if GRAPHRAG_API_AVAILABLE w && data_loaded w then
    attempted <- await_api Local query ;;
    match attempted with
    | Returned (response, context) =>
        try_except (json_response (response_dict response context))
                   cli_fallback
    | Raised _ => cli_fallback
    end
  else cli_fallback.

(** [drift_search]: the command line tool has no drift method, the fallback
    runs the local one. *)
Definition drift_search (query : str) : M Response :=
  let cli_fallback : M Response :=
    result <- execute_cli_search query (lit "local") handler_kwargs ;;
    success <- getitem result (lit "success") ;;
    failed <- py_not success ;;
    if failed : bool then
      detail <- getitem result (lit "response") ;;
      raise (HTTPException 500 detail)
    else
      let result := dict_set result (lit "method_used")
                             (PyStr (lit "cli_local_fallback")) in
      json_response (PyDict result) in
  if GRAPHRAG_API_AVAILABLE w && data_loaded w then
    attempted <- await_api Drift query ;;
    match attempted with
    | Returned (response, context) =>
        try_except (json_response (response_dict response context))
                   cli_fallback
    | Raised _ => cli_fallback
    end
  else cli_fallback.

(** [basic_search] *)
Definition basic_search (query : str) : M Response :=
  let cli_fallback : M Response :=
    result <- execute_cli_search query (lit "local") handler_kwargs ;;
    success <- getitem result (lit "success") ;;
    failed <- py_not success ;;
    if failed : bool then
      detail <- getitem result (lit "response") ;;
      raise (HTTPException 500 detail)
    else
      let result := dict_set result (lit "method_used")
                             (PyStr (lit "cli_basic_fallback")) in
      json_response (PyDict result) in
  if GRAPHRAG_API_AVAILABLE w && data_loaded w then
    attempted <- await_api Basic query ;;
    match attempted with
    | Returned (response, context) =>
        try_except (json_response (response_dict response context))
                   cli_fallback
    | Raised _ => cli_fallback
    end
  else cli_fallback.

(** The handler of [/search/<v>]. *)
Definition search (v : variant) : str -> M Response :=
  match v with
  | Global => global_search
  | Local => local_search
  | Drift => drift_search
  | Basic => basic_search
  end.

(** [query_get]; [method] is [None] when the request has no [method]
    parameter, and the declared default is ["global"]. *)
Definition query_get (q : str) (method : option str) : M Response :=
  let method := match method with Some m => m | None => lit "global" end in
  if str_eqb method (lit "global") then global_search q
  else if str_eqb method (lit "local") then local_search q
  else if str_eqb method (lit "drift") then drift_search q
  else if str_eqb method (lit "basic") then basic_search q
  else raise (HTTPException 400
                (PyStr (lit "Invalid method. Use: global, local, drift, or basic"))).

End WithWorld.

End App.

(* ===================================================================== *)
(** * The scheme of the handlers, and some worlds *)
(* ===================================================================== *)

Module Dispatch.
Import Text Py App.

(** The method token a handler gives to the CLI bridge. *)
Definition cli_method (v : variant) : str :=
  match v with
  | Global => lit "global"
  | Local | Drift | Basic => lit "local"
  end.

(** What a handler does to the bridge's result before it answers. *)
Definition retag (v : variant) (result : dict) : dict :=
  match v with
  | Global | Local => result
  | Drift => dict_set result (lit "method_used") (PyStr (lit "cli_local_fallback"))
  | Basic => dict_set result (lit "method_used") (PyStr (lit "cli_basic_fallback"))
  end.

(** The part of a handler after its [try] statement. *)
Definition cli_phase (w : world) (v : variant) (query : str) : M Response :=
  result <- execute_cli_search w query (cli_method v) handler_kwargs ;;
  success <- getitem result (lit "success") ;;
  failed <- py_not success ;;
  if failed : bool then
    detail <- getitem result (lit "response") ;;
    raise (HTTPException 500 detail)
  else json_response w (PyDict (retag v result)).

(** The handler goes on to the CLI phase: the engine is not tried, or it
    raises, or the response built from what it returned does not serialize. *)
Definition cli_phase_taken (w : world) (v : variant) (query : str) : Prop :=
  GRAPHRAG_API_AVAILABLE w && data_loaded w = false
  \/ (GRAPHRAG_API_AVAILABLE w && data_loaded w = true
      /\ exists message, api w v query = Raised message)
  \/ (GRAPHRAG_API_AVAILABLE w && data_loaded w = true
      /\ exists response context,
           api w v query = Returned (response, context)
           /\ json_renders w (response_dict response context) = false).

(** The state in which the CLI phase starts. *)
Definition before_cli (w : world) (v : variant) (query : str) : state :=
  if GRAPHRAG_API_AVAILABLE w && data_loaded w
  then mkState [ApiCall v query] 0
  else initial.

(** The [method_used] of an answer that comes from the CLI phase. *)
Definition fallback_tag (v : variant) : str :=
  match v with
  | Global | Local => lit "cli"
  | Drift => lit "cli_local_fallback"
  | Basic => lit "cli_basic_fallback"
  end.

(** The methods [/query] knows. *)
Definition valid_methods : list str :=
  [lit "global"; lit "local"; lit "drift"; lit "basic"].


(** ** Worlds to run the handlers in *)

(** What [json.dumps(c, allow_nan=False)] accepts among the values of the
    model: JSON primitives with finite floats, and lists and dicts of values
    it accepts. *)
Fixpoint json_dumps_accepts (v : pyobj) : bool :=
  match v with
  | PyScalar (SFloat f) => PrimFloat.is_finite f
  | PyScalar a => json_scalar a
  | PyList items => forallb json_dumps_accepts items
  | PyDict items => forallb (fun kv => json_dumps_accepts (snd kv)) items
  | PyDataFrame _ => false
  end.

(** What serializes is JSON: [json.dumps] accepts no table and no object of
    another class, in whatever list or dict it sits. *)
Definition renders_json_only (w : world) : Prop :=
  forall c, json_renders w c = true -> json_only c = true.

(** A world whose only interesting part is what the command line tool does. *)
Definition cli_world (outcome : attempt CompletedProcess) : world :=
  mkWorld false false
          (fun _ _ => Raised (lit "unavailable"))
          (fun _ => outcome)
          (fun _ => PrimFloat.zero)
          json_dumps_accepts.

(** A world where the engine raises on every call and the tool prints
    ["Hi"]. *)
Definition failing_engine_world : world :=
  mkWorld true true
          (fun _ _ => Raised (lit "engine failure"))
          (fun _ => Returned (mkCompletedProcess 0 (lit "Hi") []))
          (fun _ => PrimFloat.zero)
          json_dumps_accepts.

(** A world where the engine answers every query with the same response and
    context, and the tool prints ["Hi"]. *)
Definition engine_world (response context : pyobj) : world :=
  mkWorld true true
          (fun _ _ => Returned (response, context))
          (fun _ => Returned (mkCompletedProcess 0 (lit "Hi") []))
          (fun _ => PrimFloat.zero)
          json_dumps_accepts.

End Dispatch.

(* ===================================================================== *)
(** * Start-up and the status endpoints *)
(* ===================================================================== *)

Module Startup.
Import Text Py App.

(** What [load_config] returns; the module only passes it on to the engine. *)
Inductive Config : Type := mkConfig (id : N).

(** The files under the project directory, as [load_config] and
    [pd.read_parquet] find them: each call returns, or raises. *)
Record disk : Type := mkDisk {
  load_config : str -> attempt Config;
  read_parquet : str -> attempt DataFrame
}.

(** The calls [lifespan] makes, in order. *)
Inductive io_event : Type :=
| LoadConfig (root : str)
| ReadParquet (path : str).

(** The attributes of [app.state]; [None] for an attribute that was never
    assigned.  [covariates] is assigned [None] or a table. *)
Record AppState : Type := mkAppState {
  config : option Config;
  entities : option DataFrame;
  communities : option DataFrame;
  community_reports : option DataFrame;
  text_units : option DataFrame;
  relationships : option DataFrame;
  covariates : option (option DataFrame);
  attr_data_loaded : option bool
}.

Definition fresh_state : AppState :=
  mkAppState None None None None None None None None.

(** Computations of the start-up: they assign attributes, log their calls
    and may raise. *)
Definition S (A : Type) : Type :=
  AppState * list io_event -> attempt A * (AppState * list io_event).

Definition sret {A} (a : A) : S A := fun st => (Returned a, st).

Definition sbind {A B} (m : S A) (k : A -> S B) : S B :=
  fun st =>
    match m st with
    | (Returned a, st') => k a st'
    | (Raised str_e, st') => (Raised str_e, st')
    end.

(** [try: body except ...: handler] *)
Definition stry {A} (body handler : S A) : S A :=
  fun st =>
    match body st with
    | (Returned a, st') => (Returned a, st')
    | (Raised _, st') => handler st'
    end.

Notation "x <~ m ;; k" := (sbind m (fun x => k))
  (at level 61, m at next level, right associativity).

(** [app.state.<attribute> = value] *)
Definition assign (f : AppState -> AppState) : S unit :=
  fun st => (Returned tt, (f (fst st), snd st)).

Definition set_config (v : Config) (a : AppState) : AppState :=
  mkAppState (Some v) (entities a) (communities a) (community_reports a)
             (text_units a) (relationships a) (covariates a) (attr_data_loaded a).
Definition set_entities (v : DataFrame) (a : AppState) : AppState :=
  mkAppState (config a) (Some v) (communities a) (community_reports a)
             (text_units a) (relationships a) (covariates a) (attr_data_loaded a).
Definition set_communities (v : DataFrame) (a : AppState) : AppState :=
  mkAppState (config a) (entities a) (Some v) (community_reports a)
             (text_units a) (relationships a) (covariates a) (attr_data_loaded a).
Definition set_community_reports (v : DataFrame) (a : AppState) : AppState :=
  mkAppState (config a) (entities a) (communities a) (Some v)
             (text_units a) (relationships a) (covariates a) (attr_data_loaded a).
Definition set_text_units (v : DataFrame) (a : AppState) : AppState :=
  mkAppState (config a) (entities a) (communities a) (community_reports a)
             (Some v) (relationships a) (covariates a) (attr_data_loaded a).
Definition set_relationships (v : DataFrame) (a : AppState) : AppState :=
  mkAppState (config a) (entities a) (communities a) (community_reports a)
             (text_units a) (Some v) (covariates a) (attr_data_loaded a).
Definition set_covariates (v : option DataFrame) (a : AppState) : AppState :=
  mkAppState (config a) (entities a) (communities a) (community_reports a)
             (text_units a) (relationships a) (Some v) (attr_data_loaded a).
Definition set_data_loaded (v : bool) (a : AppState) : AppState :=
  mkAppState (config a) (entities a) (communities a) (community_reports a)
             (text_units a) (relationships a) (covariates a) (Some v).

Section WithDisk.

Variable d : disk.

(** [load_config(Path(root))] *)
Definition call_load_config (root : str) : S Config :=
  fun st => (load_config d root, (fst st, snd st ++ [LoadConfig root])).

(** [pd.read_parquet(path)] *)
Definition call_read_parquet (path : str) : S DataFrame :=
  fun st => (read_parquet d path, (fst st, snd st ++ [ReadParquet path])).

(** The part of [lifespan] before [yield], as a function of the two module
    constants it reads; it leaves the state of the application and the calls
    it made. *)
Definition lifespan_with (available claim_extraction_enabled : bool)
  : AppState * list io_event :=
  snd (stry
         (if available then
            loaded <~ call_load_config PROJECT_DIRECTORY ;;
            _ <~ assign (set_config loaded) ;;
            t <~ call_read_parquet (PROJECT_DIRECTORY ++ lit "/output/entities.parquet") ;;
            _ <~ assign (set_entities t) ;;
            t <~ call_read_parquet (PROJECT_DIRECTORY ++ lit "/output/communities.parquet") ;;
            _ <~ assign (set_communities t) ;;
            t <~ call_read_parquet (PROJECT_DIRECTORY ++ lit "/output/community_reports.parquet") ;;
            _ <~ assign (set_community_reports t) ;;
            t <~ call_read_parquet (PROJECT_DIRECTORY ++ lit "/output/text_units.parquet") ;;
            _ <~ assign (set_text_units t) ;;
            t <~ call_read_parquet (PROJECT_DIRECTORY ++ lit "/output/relationships.parquet") ;;
            _ <~ assign (set_relationships t) ;;
            _ <~ stry
                   (if claim_extraction_enabled then
                      t <~ call_read_parquet
                             (PROJECT_DIRECTORY ++ lit "/output/covariates.parquet") ;;
                      assign (set_covariates (Some t))
                    else assign (set_covariates None))
                   (assign (set_covariates None)) ;;
            assign (set_data_loaded true)
          else assign (set_data_loaded false))
         (assign (set_data_loaded false))
         (fresh_state, [])).

(** [lifespan], with [CLAIM_EXTRACTION_ENABLED] as the module sets it. *)
Definition lifespan (available : bool) : AppState * list io_event :=
  lifespan_with available CLAIM_EXTRACTION_ENABLED.

End WithDisk.

(** [getattr(app.state, 'data_loaded', False)] *)
Definition getattr_data_loaded (a : AppState) : bool :=
  match attr_data_loaded a with
  | Some b => b
  | None => false
  end.

(** The world the handlers serve in once [lifespan] has run. *)
Definition world_after (available : bool) (a : AppState)
    (engine : variant -> str -> attempt (pyobj * pyobj))
    (tool : list str -> attempt CompletedProcess)
    (clock : nat -> PrimFloat.float) (renders : pyobj -> bool) : world :=
  mkWorld available (getattr_data_loaded a) engine tool clock renders.

(** [status] *)
Definition status (w : world) (a : AppState) : M Response :=
  json_response w
    (PyDict [(lit "status", PyStr (lit "Server is up and running"));
             (lit "graphrag_api_available", PyBool (GRAPHRAG_API_AVAILABLE w));
             (lit "data_loaded", PyBool (getattr_data_loaded a));
             (lit "fallback_mode",
              PyStr (if negb (GRAPHRAG_API_AVAILABLE w)
                     then lit "CLI available"
                     else lit "API + CLI fallback"));
             (lit "project_directory", PyStr PROJECT_DIRECTORY);
             (lit "community_level", PyScalar (SInt COMMUNITY_LEVEL));
             (lit "response_type", PyStr RESPONSE_TYPE)]).

(** [root] *)
Definition root (w : world) (a : AppState) : M Response := status w a.

(** [health] *)
Definition health : M dict := ret [(lit "status", PyStr (lit "healthy"))].

(** The files a load needs, in the order [lifespan] reads them. *)
Definition required_tables : list str :=
  [PROJECT_DIRECTORY ++ lit "/output/entities.parquet";
   PROJECT_DIRECTORY ++ lit "/output/communities.parquet";
   PROJECT_DIRECTORY ++ lit "/output/community_reports.parquet";
   PROJECT_DIRECTORY ++ lit "/output/text_units.parquet";
   PROJECT_DIRECTORY ++ lit "/output/relationships.parquet"].

Definition covariates_file : str :=
  PROJECT_DIRECTORY ++ lit "/output/covariates.parquet".

(** Every call a complete load makes. *)
Definition full_load (claim_extraction_enabled : bool) : list io_event :=
  LoadConfig PROJECT_DIRECTORY :: map ReadParquet required_tables
  ++ (if claim_extraction_enabled then [ReadParquet covariates_file] else []).

(** A disk on which every file is there, with the same one-cell table in
    each. *)
Definition sample_table : DataFrame :=
  mkDataFrame [lit "id"] [[PyScalar (SInt 1)]].

Definition full_disk : disk :=
  mkDisk (fun _ => Returned (mkConfig 0)) (fun _ => Returned sample_table).

(** A disk on which one file is missing. *)
Definition disk_without (missing : str) : disk :=
  mkDisk (fun _ => Returned (mkConfig 0))
         (fun path => if str_eqb path missing
                      then Raised (lit "No such file or directory")
                      else Returned sample_table).

(** Whether a call of the start-up returns. *)
Definition returns (d : disk) (ev : io_event) : bool :=
  match ev with
  | LoadConfig root =>
      match load_config d root with Returned _ => true | Raised _ => false end
  | ReadParquet path =>
      match read_parquet d path with Returned _ => true | Raised _ => false end
  end.

End Startup.

(* ===================================================================== *)
(** * Facts about the string methods *)
(* ===================================================================== *)

Module TextFacts.
Import Text.

(** ** Unfolding [split] *)

Lemma split_none (c : char) (sep s : str) :
  cut (c :: sep) s = None -> split (c :: sep) s = [s].
Proof.
  intros H. simp split.
  destruct (inspect (cut (c :: sep) s)) as [[[b a]|] E]; simpl.
  - congruence.
  - reflexivity.
Qed.

Lemma split_some (c : char) (sep s before after : str) :
  cut (c :: sep) s = Some (before, after) ->
  split (c :: sep) s = before :: split (c :: sep) after.
Proof.
  intros H. rewrite split_equation_2.
  destruct (inspect (cut (c :: sep) s)) as [[[b a]|] E]; simpl.
  - rewrite H in E. injection E as <- <-. reflexivity.
  - congruence.
Qed.

Lemma split_nonempty (sep s : str) : split sep s <> [].
Proof.
  destruct sep as [|c sep]; [simp split; discriminate|].
  destruct (cut (c :: sep) s) as [[b a]|] eqn:E.
  - rewrite (split_some _ _ _ _ _ E). discriminate.
  - rewrite (split_none _ _ _ E). discriminate.
Qed.

Lemma split_absent (c : char) (sep s : str) :
  contains (c :: sep) s = false -> split (c :: sep) s = [s].
Proof.
  rewrite cut_contains. destruct (cut (c :: sep) s) eqn:E; [discriminate|].
  intros _. now apply split_none.
Qed.

(** ** Prefixes *)

Lemma startswith_app_same (a x y : str) :
  startswith (a ++ x) (a ++ y) = startswith x y.
Proof.
  induction a as [|c a IH]; simpl; [reflexivity|].
  now rewrite N.eqb_refl, IH.
Qed.

Lemma startswith_prefix (m a r : str) :
  startswith m (a ++ r) = true -> length a <= length m ->
  exists x, m = a ++ x.
Proof.
  revert m; induction a as [|c a IH]; intros m H Hlen.
  - now exists m.
  - destruct m as [|d m]; simpl in Hlen; [lia|].
    simpl in H. apply andb_prop in H as [Hd H]. apply N.eqb_eq in Hd. subst d.
    destruct (IH m H) as [x ->]; [lia|]. now exists x.
Qed.

Lemma startswith_shorten (x m b : str) :
  startswith x (m ++ b) = true -> length x <= length m ->
  startswith x m = true.
Proof.
  revert m; induction x as [|c x IH]; intros m H Hlen; [reflexivity|].
  destruct m as [|d m]; simpl in Hlen; [lia|].
  simpl in *. apply andb_prop in H as [Hd H]. rewrite Hd. simpl.
  apply IH; [assumption | lia].
Qed.

(** ** Separators that do not overlap themselves *)

Lemma unbordered_spec (m a x : str) :
  unbordered m = true -> m = a ++ x -> a <> [] -> x <> [] ->
  startswith x m = false.
Proof.
  intros Hu -> Ha Hx. unfold unbordered in Hu.
  rewrite forallb_forall in Hu.
  specialize (Hu (length a)).
  assert (Hin : In (length a) (seq 1 (length (a ++ x) - 1))).
  { apply in_seq. rewrite length_app.
    destruct a; [congruence|]. destruct x; [congruence|]. simpl. lia. }
  specialize (Hu Hin).
  rewrite skipn_app, skipn_all, Nat.sub_diag in Hu. simpl in Hu.
  now apply negb_true_iff in Hu.
Qed.

(** An occurrence of an unbordered [m] that starts inside another one starts
    where that one starts. *)
Lemma unbordered_no_overlap (m a r : str) :
  unbordered m = true -> m <> [] ->
  startswith m (a ++ m ++ r) = true -> length a < length m -> a = [].
Proof.
  intros Hu Hm H Hlen.
  destruct a as [|c a]; [reflexivity|]. exfalso.
  destruct (startswith_prefix m (c :: a) (m ++ r) H) as [x Hx]; [lia|].
  assert (Hxnil : x <> []).
  { intros ->. rewrite app_nil_r in Hx. subst m. lia. }
  assert (Hxm : startswith x m = true).
  { apply startswith_shorten with (b := r).
    - rewrite Hx in H at 1. now rewrite startswith_app_same in H.
    - rewrite Hx, length_app. simpl. lia. }
  rewrite (unbordered_spec m (c :: a) x Hu Hx) in Hxm; [discriminate | discriminate | assumption].
Qed.

(** ** Occurrences *)

Lemma contains_unfold (m s : str) :
  contains m s =
  startswith m s || match s with [] => false | _ :: s' => contains m s' end.
Proof. destruct s; reflexivity. Qed.

Lemma contains_occurrence (m a b : str) : contains m (a ++ m ++ b) = true.
Proof.
  induction a as [|c a IH]; simpl.
  - rewrite contains_unfold, startswith_refl_app. reflexivity.
  - rewrite IH. apply orb_true_r.
Qed.

Lemma cut_start (m s : str) :
  startswith m s = true -> cut m s = Some ([], skipn (length m) s).
Proof. intros H. destruct s; simpl; rewrite H; reflexivity. Qed.

Lemma cut_later (m : str) (c : char) (s : str) :
  startswith m (c :: s) = false ->
  cut m (c :: s) =
  match cut m s with
  | Some (before, after) => Some (c :: before, after)
  | None => None
  end.
Proof. intros H. simpl cut. rewrite H. reflexivity. Qed.

(** Every text that contains [m] ends with an occurrence of [m] followed by
    a text without [m]. *)
Lemma last_occurrence (m s : str) :
  m <> [] -> contains m s = true ->
  exists pre post, s = pre ++ m ++ post /\ contains m post = false.
Proof.
  intros Hm. destruct m as [|c sep]; [congruence|]. clear Hm.
  remember (length s) as n eqn:Hn. revert s Hn.
  induction n as [n IH] using lt_wf_ind. intros s Hn Hs.
  rewrite cut_contains in Hs.
  destruct (cut (c :: sep) s) as [[b1 a1]|] eqn:E; [|discriminate].
  pose proof (cut_shorter _ _ _ _ _ E) as Hshort.
  apply cut_app in E.
  destruct (contains (c :: sep) a1) eqn:Ha1.
  - destruct (IH (length a1)) with (s := a1) as (pre & post & -> & Hpost);
      [lia | reflexivity | assumption |].
    exists (b1 ++ (c :: sep) ++ pre), post. split; [|assumption].
    rewrite E, <- !app_assoc. reflexivity.
  - now exists b1, a1.
Qed.

Lemma last_cons (x : str) (l : list str) (d : str) :
  l <> [] -> last (x :: l) d = last l d.
Proof. destruct l; [congruence | reflexivity]. Qed.

(** The last piece of [split] is the text after the last occurrence. *)
Lemma split_last (m a b : str) :
  unbordered m = true -> m <> [] -> contains m b = false ->
  last (split m (a ++ m ++ b)) [] = b.
Proof.
  intros Hu Hm Hb.
  destruct m as [|c sep]; [congruence|].
  remember (length a) as n eqn:Hn. revert a Hn.
  induction n as [n IH] using lt_wf_ind. intros a Hn.
  destruct (startswith (c :: sep) (a ++ (c :: sep) ++ b)) eqn:Hstart.
  - rewrite (split_some _ _ _ _ _ (cut_start _ _ Hstart)).
    destruct (Nat.ltb (length a) (length (c :: sep))) eqn:Hlt.
    + apply Nat.ltb_lt in Hlt.
      rewrite (unbordered_no_overlap _ a b Hu Hm Hstart Hlt).
      rewrite app_nil_l, skipn_app, skipn_all, Nat.sub_diag, app_nil_l.
      rewrite skipn_O, (split_absent _ _ _ Hb). reflexivity.
    + apply Nat.ltb_ge in Hlt.
      assert (Ha : startswith (c :: sep) a = true)
        by (apply startswith_shorten with (b := (c :: sep) ++ b); assumption).
      apply startswith_app in Ha.
      remember (skipn (length (c :: sep)) a) as a' eqn:Ha'.
      rewrite Ha, <- app_assoc, skipn_app, skipn_all, Nat.sub_diag.
      rewrite app_nil_l, skipn_O.
      rewrite last_cons by apply split_nonempty.
      apply (IH (length a')); [|reflexivity].
      rewrite Hn, Ha, length_app. simpl. lia.
  - destruct a as [|d a];
      [rewrite app_nil_l, startswith_refl_app in Hstart; discriminate|].
    change ((d :: a) ++ (c :: sep) ++ b) with (d :: (a ++ (c :: sep) ++ b)) in *.
    pose proof (cut_later _ _ _ Hstart) as Hcut.
    pose proof (contains_occurrence (c :: sep) a b) as Hocc.
    rewrite cut_contains in Hocc.
    destruct (cut (c :: sep) (a ++ (c :: sep) ++ b)) as [[b1 a1]|] eqn:E;
      [|discriminate].
    simpl in Hn.
    pose proof (IH (length a) ltac:(lia) a eq_refl) as IHa.
    rewrite (split_some _ _ _ _ _ Hcut).
    rewrite (split_some _ _ _ _ _ E) in IHa.
    rewrite last_cons in IHa |- * by apply split_nonempty.
    exact IHa.
Qed.

Lemma startswith_app_r (m x y : str) :
  startswith m x = true -> startswith m (x ++ y) = true.
Proof.
  revert x; induction m as [|c m IH]; intros [|d x] H; simpl in *;
    try reflexivity; try discriminate.
  apply andb_prop in H as [-> H]. now rewrite IH.
Qed.

Lemma contains_app_l (m x y : str) :
  contains m x = true -> contains m (x ++ y) = true.
Proof.
  induction x as [|c x IH]; intros H.
  - rewrite contains_unfold in H. rewrite orb_false_r in H.
    rewrite contains_unfold. rewrite (startswith_app_r _ _ y H). reflexivity.
  - simpl in *. apply orb_prop in H as [H|H].
    + change (c :: x ++ y) with ((c :: x) ++ y).
      now rewrite (startswith_app_r _ _ y H).
    + rewrite (IH H). apply orb_true_r.
Qed.

Lemma contains_app_r (m x y : str) :
  contains m y = true -> contains m (x ++ y) = true.
Proof.
  intros H. induction x as [|c x IH]; simpl; [assumption|].
  rewrite IH. apply orb_true_r.
Qed.

(** ** White space at the ends *)

Lemma lstrip_suffix (s : str) : exists ws, s = ws ++ lstrip s.
Proof.
  induction s as [|c s [ws IH]]; simpl.
  - now exists [].
  - destruct (isspace c).
    + exists (c :: ws). simpl. now f_equal.
    + now exists [].
Qed.

Lemma rstrip_prefix (s : str) : exists ws, s = rstrip s ++ ws.
Proof.
  induction s as [|c s [ws IH]]; simpl.
  - now exists [].
  - destruct (rstrip s) as [|d r].
    + destruct (isspace c).
      * exists (c :: ws). simpl. now f_equal.
      * exists ws. simpl. now f_equal.
    + exists ws. simpl. now f_equal.
Qed.

Lemma contains_strip (m s : str) :
  contains m s = false -> contains m (strip s) = false.
Proof.
  intros H. destruct (contains m (strip s)) eqn:E; [|reflexivity].
  unfold strip in E.
  destruct (lstrip_suffix s) as [w1 H1].
  destruct (rstrip_prefix (lstrip s)) as [w2 H2].
  rewrite H1, H2 in H.
  rewrite contains_app_r in H; [discriminate|].
  now apply contains_app_l.
Qed.

Lemma contains_rstrip (m s : str) :
  contains m s = false -> contains m (rstrip s) = false.
Proof.
  intros H. destruct (contains m (rstrip s)) eqn:E; [|reflexivity].
  destruct (rstrip_prefix s) as [w Hw]. rewrite Hw in H.
  now rewrite contains_app_l in H.
Qed.

Lemma lstrip_before (pre : str) (h : char) (r : str) :
  isspace h = false -> lstrip (pre ++ h :: r) = lstrip pre ++ h :: r.
Proof.
  intros Hh. induction pre as [|c pre IH]; simpl.
  - now rewrite Hh.
  - destruct (isspace c); [assumption | reflexivity].
Qed.

Lemma rstrip_keep (x y : str) :
  rstrip y <> [] -> rstrip (x ++ y) = x ++ rstrip y.
Proof.
  intros Hy. induction x as [|c x IH]; simpl; [reflexivity|].
  rewrite IH. destruct (x ++ rstrip y) eqn:E; [|reflexivity].
  apply app_eq_nil in E as [_ E]. congruence.
Qed.

Lemma rstrip_after (m post : str) :
  nospace m = true -> m <> [] -> rstrip (m ++ post) = m ++ rstrip post.
Proof.
  intros Hm Hne. induction m as [|z m IH]; [congruence|].
  simpl in Hm. apply andb_prop in Hm as [Hz Hm].
  apply negb_true_iff in Hz. simpl.
  destruct m as [|z' m].
  - simpl. destruct (rstrip post); [now rewrite Hz | reflexivity].
  - rewrite IH by (assumption || discriminate). reflexivity.
Qed.

Lemma lstrip_rstrip (s : str) : lstrip (rstrip s) = rstrip (lstrip s).
Proof.
  induction s as [|c s IH]; [reflexivity|].
  simpl. destruct (isspace c) eqn:Hc.
  - rewrite <- IH. destruct (rstrip s) as [|d r]; [reflexivity|].
    simpl. now rewrite Hc.
  - simpl. destruct (rstrip s) as [|d r]; rewrite ?Hc; simpl; now rewrite Hc.
Qed.

Lemma rstrip_idempotent (s : str) : rstrip (rstrip s) = rstrip s.
Proof.
  induction s as [|c s IH]; [reflexivity|].
  simpl. destruct (rstrip s) as [|d r] eqn:E.
  - destruct (isspace c) eqn:Hc; [reflexivity|]. simpl. now rewrite Hc.
  - change (rstrip (c :: d :: r)) with
      (match rstrip (d :: r) with [] => if isspace c then [] else [c] | x => c :: x end).
    rewrite IH. reflexivity.
Qed.

Lemma strip_rstrip (s : str) : strip (rstrip s) = strip s.
Proof.
  unfold strip. now rewrite lstrip_rstrip, rstrip_idempotent.
Qed.

(** Stripping a text around an occurrence of a word without white space. *)
Lemma strip_around (m pre post : str) :
  nospace m = true -> m <> [] ->
  strip (pre ++ m ++ post) = lstrip pre ++ m ++ rstrip post.
Proof.
  intros Hm Hne. unfold strip.
  destruct m as [|h m']; [congruence|].
  assert (Hh : isspace h = false).
  { simpl in Hm. apply andb_prop in Hm as [Hh _]. now apply negb_true_iff. }
  change (pre ++ (h :: m') ++ post) with (pre ++ h :: (m' ++ post)).
  rewrite lstrip_before by assumption.
  change (lstrip pre ++ h :: m' ++ post) with (lstrip pre ++ (h :: m') ++ post).
  rewrite rstrip_keep; rewrite rstrip_after by assumption; [reflexivity|discriminate].
Qed.

(** ** Lines *)

Lemma join_cons (sep p : str) (rest : list str) :
  rest <> [] -> join sep (p :: rest) = p ++ sep ++ join sep rest.
Proof. destruct rest; [congruence | reflexivity]. Qed.

Lemma join_split (c : char) (sep s : str) :
  join (c :: sep) (split (c :: sep) s) = s.
Proof.
  remember (length s) as n eqn:Hn. revert s Hn.
  induction n as [n IH] using lt_wf_ind. intros s Hn.
  destruct (cut (c :: sep) s) as [[b a]|] eqn:E.
  - rewrite (split_some _ _ _ _ _ E), join_cons by apply split_nonempty.
    rewrite (IH (length a)); [| subst n; eapply cut_shorter; eassumption | reflexivity].
    symmetry. now apply cut_app.
  - now rewrite (split_none _ _ _ E).
Qed.

Lemma cut_char_first (c : char) (line more : str) :
  ~ In c line -> cut [c] (line ++ c :: more) = Some (line, more).
Proof.
  induction line as [|d line IH]; intros Hin; simpl.
  - now rewrite N.eqb_refl.
  - destruct (N.eqb_spec c d) as [->|Hcd]; [exfalso; apply Hin; now left|].
    simpl. rewrite IH; [reflexivity|]. intros H. apply Hin. now right.
Qed.

Lemma cut_char_absent (c : char) (s : str) : ~ In c s -> cut [c] s = None.
Proof.
  induction s as [|d s IH]; intros Hin; simpl; [reflexivity|].
  destruct (N.eqb_spec c d) as [->|Hcd]; [exfalso; apply Hin; now left|].
  simpl. rewrite IH; [reflexivity|]. intros H. apply Hin. now right.
Qed.

(** Dropping the first line: ["\n".join(s.split("\n")[1:])]. *)
Lemma drop_first_line (line more : str) :
  ~ In LF line -> join [LF] (tl (split [LF] (line ++ LF :: more))) = more.
Proof.
  intros H. rewrite (split_some _ _ _ _ _ (cut_char_first LF line more H)).
  simpl tl. apply join_split.
Qed.

Lemma drop_only_line (s : str) :
  ~ In LF s -> join [LF] (tl (split [LF] s)) = [].
Proof.
  intros H. rewrite (split_none _ _ _ (cut_char_absent LF s H)). reflexivity.
Qed.

End TextFacts.

(* ===================================================================== *)
(** * Facts about the CLI bridge *)
(* ===================================================================== *)

Module BridgeFacts.
Import Text Py App Dispatch TextFacts.

Lemma SUCCESS_unbordered : unbordered SUCCESS = true.
Proof. reflexivity. Qed.

Lemma SUCCESS_nospace : nospace SUCCESS = true.
Proof. reflexivity. Qed.

Lemma SUCCESS_nonempty : SUCCESS <> [].
Proof. discriminate. Qed.

Lemma split_present_length (m s : str) :
  m <> [] -> contains m s = true -> Nat.ltb 1 (length (split m s)) = true.
Proof.
  destruct m as [|c sep]; [congruence|]. intros _.
  rewrite cut_contains.
  destruct (cut (c :: sep) s) as [[b a]|] eqn:E; [|discriminate]. intros _.
  rewrite (split_some _ _ _ _ _ E). simpl.
  pose proof (split_nonempty (c :: sep) a) as Hne.
  destruct (split (c :: sep) a); [congruence | reflexivity].
Qed.

(** Without the marker the text is left as it is. *)
Lemma extract_absent (t : str) :
  contains SUCCESS t = false -> extract_clean_response t = t.
Proof. intros H. unfold extract_clean_response. now rewrite H. Qed.

(** With the marker, the text after its last occurrence is stripped and
    loses its first line when it starts with one of the headers. *)
Lemma extract_present (pre post : str) :
  contains SUCCESS post = false ->
  extract_clean_response (strip (pre ++ SUCCESS ++ post)) =
  if startswith LOCAL_HEADER (strip post) || startswith GLOBAL_HEADER (strip post)
  then strip (join [LF] (tl (split [LF] (strip post))))
  else strip post.
Proof.
  intros Hpost.
  rewrite (strip_around _ pre post SUCCESS_nospace SUCCESS_nonempty).
  unfold extract_clean_response.
  rewrite contains_occurrence.
  rewrite split_present_length
    by (apply SUCCESS_nonempty || apply contains_occurrence).
  rewrite (split_last _ _ _ SUCCESS_unbordered SUCCESS_nonempty
             (contains_rstrip _ _ Hpost)).
  rewrite strip_rstrip. reflexivity.
Qed.

(** The three ways [execute_cli_search] ends. *)
Lemma cli_exit_zero (w : world) (query method : str) (kwargs : Kwargs)
    (st : state) (p : CompletedProcess) :
  subprocess_run w (cli_command query method kwargs) = Returned p ->
  returncode p = 0%Z ->
  execute_cli_search w query method kwargs st =
  (Returns
     [(lit "response", PyStr (extract_clean_response (strip (stdout p))));
      (lit "context_data",
       PyDict [(lit "method", PyStr (lit "cli_fallback"));
               (lit "execution_time",
                PyFloat (PrimFloat.sub (time_time w (S (clock_reads st)))
                                       (time_time w (clock_reads st))))]);
      (lit "success", PyBool true);
      (lit "method_used", PyStr (lit "cli"))],
   mkState (trace st ++ [SubprocessRun (cli_command query method kwargs) 300 (lit ".")])
           (S (S (clock_reads st)))).
Proof.
  intros Hrun Hrc.
  unfold execute_cli_search, run, bind, time_, emit, ret. simpl.
  rewrite Hrun, Hrc. reflexivity.
Qed.

Lemma cli_exit_nonzero (w : world) (query method : str) (kwargs : Kwargs)
    (st : state) (p : CompletedProcess) :
  subprocess_run w (cli_command query method kwargs) = Returned p ->
  returncode p <> 0%Z ->
  execute_cli_search w query method kwargs st =
  (Returns
     [(lit "response", PyStr (lit "CLI Error: " ++ stderr p));
      (lit "context_data", PyDict [(lit "error", PyStr (stderr p))]);
      (lit "success", PyBool false);
      (lit "method_used", PyStr (lit "cli"))],
   mkState (trace st ++ [SubprocessRun (cli_command query method kwargs) 300 (lit ".")])
           (S (S (clock_reads st)))).
Proof.
  intros Hrun Hrc.
  unfold execute_cli_search, run, bind, time_, emit, ret. simpl.
  rewrite Hrun. apply Z.eqb_neq in Hrc. rewrite Hrc. reflexivity.
Qed.

Lemma cli_raised (w : world) (query method : str) (kwargs : Kwargs)
    (st : state) (message : str) :
  subprocess_run w (cli_command query method kwargs) = Raised message ->
  execute_cli_search w query method kwargs st =
  (Returns
     [(lit "response", PyStr (lit "CLI Exception: " ++ message));
      (lit "context_data", PyDict [(lit "error", PyStr message)]);
      (lit "success", PyBool false);
      (lit "method_used", PyStr (lit "cli"))],
   mkState (trace st ++ [SubprocessRun (cli_command query method kwargs) 300 (lit ".")])
           (S (clock_reads st))).
Proof.
  intros Hrun.
  unfold execute_cli_search, run, bind, time_, emit, ret. simpl.
  rewrite Hrun. reflexivity.
Qed.

End BridgeFacts.

(* ===================================================================== *)
(** * Facts about the handlers *)
(* ===================================================================== *)

Module HandlerFacts.
Import Text Py App Dispatch TextFacts BridgeFacts.

(** The four handlers follow one scheme. *)
Lemma search_scheme (w : world) (v : variant) (query : str) :
  search w v query =
  if GRAPHRAG_API_AVAILABLE w && data_loaded w then
    attempted <- await_api w v query ;;
    match attempted with
    | Returned (response, context) =>
        try_except (json_response w (response_dict response context))
                   (cli_phase w v query)
    | Raised _ => cli_phase w v query
    end
  else cli_phase w v query.
Proof. destruct v; reflexivity. Qed.

Lemma search_cli_phase (w : world) (v : variant) (query : str) :
  cli_phase_taken w v query ->
  search w v query initial = cli_phase w v query (before_cli w v query).
Proof.
  intros H. rewrite search_scheme. unfold before_cli.
  destruct H as [H | [[H [message Hm]] | [H (response & context & Ha & Hr)]]];
    rewrite H; [reflexivity | |];
    unfold bind, await_api, emit, ret; simpl.
  - rewrite Hm. reflexivity.
  - rewrite Ha. unfold try_except, json_response. rewrite Hr. reflexivity.
Qed.

Lemma search_api_phase (w : world) (v : variant) (query : str)
    (response context : pyobj) :
  GRAPHRAG_API_AVAILABLE w && data_loaded w = true ->
  api w v query = Returned (response, context) ->
  json_renders w (response_dict response context) = true ->
  search w v query initial =
  (Returns (JSONResponse (response_dict response context)),
   mkState [ApiCall v query] 0).
Proof.
  intros H Ha Hr. rewrite search_scheme, H.
  unfold bind, await_api, emit, ret; simpl.
  rewrite Ha. unfold try_except, json_response. rewrite Hr. reflexivity.
Qed.

(** The CLI phase after a run of the tool that exits with a code other
    than 0. *)
Lemma cli_phase_nonzero (w : world) (v : variant) (query : str) (st : state)
    (p : CompletedProcess) :
  subprocess_run w (cli_command query (cli_method v) handler_kwargs) = Returned p ->
  returncode p <> 0%Z ->
  fst (cli_phase w v query st) =
  Raises (HTTPException 500 (PyStr (lit "CLI Error: " ++ stderr p))).
Proof.
  intros Hrun Hrc. unfold cli_phase, bind.
  rewrite (cli_exit_nonzero _ _ _ _ st p Hrun Hrc). reflexivity.
Qed.

Lemma cli_phase_trace (w : world) (v : variant) (query : str) (st : state) :
  trace (snd (cli_phase w v query st)) =
  trace st ++ [SubprocessRun (cli_command query (cli_method v) handler_kwargs)
                             300 (lit ".")].
Proof.
  unfold cli_phase, bind.
  destruct (subprocess_run w (cli_command query (cli_method v) handler_kwargs))
    as [p | message] eqn:Hrun.
  - destruct (Z.eq_dec (returncode p) 0) as [Hrc | Hrc].
    + rewrite (cli_exit_zero _ _ _ _ st p Hrun Hrc). simpl.
      unfold json_response. destruct (json_renders w _); reflexivity.
    + rewrite (cli_exit_nonzero _ _ _ _ st p Hrun Hrc). reflexivity.
  - rewrite (cli_raised _ _ _ _ st message Hrun). reflexivity.
Qed.

End HandlerFacts.

(* ===================================================================== *)
(** * Properties of the CLI bridge *)
(* ===================================================================== *)

Import Text Py App Dispatch TextFacts BridgeFacts HandlerFacts.

(** C2.  When the tool exits with code 0, [execute_cli_search] answers with
    success and a response computed from the standard output [out]: without
    the marker ["SUCCESS:"] it is [out] stripped; with the marker, written
    [out = pre ++ "SUCCESS:" ++ post] at its last occurrence, everything up to
    and including the marker is dropped and [post] is stripped, and when that
    text starts with ["Local Search Response:"] or ["Global Search Response:"]
    its first line is dropped too.  The two outputs of the specification
    both give ["Hello"]. *)
Theorem C2_cli_stdout_normalization :
  forall (w : world) (query method : str) (kwargs : Kwargs) (st : state)
         (out err : str),
    subprocess_run w (cli_command query method kwargs)
      = Returned (mkCompletedProcess 0 out err) ->
    exists (text : str) (context_data : pyobj) (st' : state),
      execute_cli_search w query method kwargs st
        = (Returns [(lit "response", PyStr text);
                    (lit "context_data", context_data);
                    (lit "success", PyBool true);
                    (lit "method_used", PyStr (lit "cli"))], st')
      /\ (contains SUCCESS out = false -> text = strip out)
      /\ (contains SUCCESS out = true ->
          exists pre post,
            out = pre ++ SUCCESS ++ post /\ contains SUCCESS post = false)
      /\ (forall pre post,
            out = pre ++ SUCCESS ++ post -> contains SUCCESS post = false ->
            (startswith LOCAL_HEADER (strip post)
             || startswith GLOBAL_HEADER (strip post) = false ->
             text = strip post)
            /\ (startswith LOCAL_HEADER (strip post)
                || startswith GLOBAL_HEADER (strip post) = true ->
                (forall line more,
                    strip post = line ++ LF :: more -> ~ In LF line ->
                    text = strip more)
                /\ (~ In LF (strip post) -> text = [])))
      /\ (out = lit "SUCCESS:" ++ [LF] ++ lit "Local Search Response:"
                ++ [LF] ++ lit "Hello" ->
          text = lit "Hello")
      /\ (out = lit "SUCCESS:" ++ [LF] ++ lit "Hello" -> text = lit "Hello").
Proof.
  intros w query method kwargs st out err Hrun.
  eexists _, _, _. split.
  { apply (cli_exit_zero w query method kwargs st _ Hrun). reflexivity. }
  cbn [stdout].
  split; [intros Habsent; apply extract_absent; now apply contains_strip|].
  split; [intros Hpresent; apply last_occurrence;
          [apply SUCCESS_nonempty | assumption]|].
  split; [|split; intros ->; reflexivity].
  intros pre post -> Hpost. rewrite (extract_present pre post Hpost).
  split; [intros Hheader; now rewrite Hheader|].
  intros Hheader. rewrite Hheader. split.
  - intros line more Hlines Hline. now rewrite Hlines, drop_first_line.
  - intros Hline. now rewrite drop_only_line.
Qed.

(** The first output of the specification, run through the bridge. *)
Lemma C2_witness :
  exists (context_data : pyobj) (st' : state),
    execute_cli_search
      (cli_world (Returned (mkCompletedProcess 0
         (lit "SUCCESS:" ++ [LF] ++ lit "Local Search Response:" ++ [LF]
              ++ lit "Hello") [])))
      (lit "test") (lit "local") handler_kwargs initial
    = (Returns [(lit "response", PyStr (lit "Hello"));
                (lit "context_data", context_data);
                (lit "success", PyBool true);
                (lit "method_used", PyStr (lit "cli"))], st').
Proof.
  destruct (C2_cli_stdout_normalization
              (cli_world (Returned (mkCompletedProcess 0
                 (lit "SUCCESS:" ++ [LF] ++ lit "Local Search Response:" ++ [LF]
                      ++ lit "Hello") [])))
              (lit "test") (lit "local") handler_kwargs initial
              (lit "SUCCESS:" ++ [LF] ++ lit "Local Search Response:" ++ [LF]
                   ++ lit "Hello") [] eq_refl)
    as (text & context_data & st' & Hrun & _ & _ & _ & Hhello & _).
  exists context_data, st'. rewrite Hrun, (Hhello eq_refl). reflexivity.
Defined.

(** C10.  The headers are only looked for after the marker: when the tool
    exits with code 0 and its standard output has no ["SUCCESS:"], the
    response is the output with the white space at its ends removed, whatever
    the output starts with. *)
Theorem C10_header_kept_without_marker :
  forall (w : world) (query method : str) (kwargs : Kwargs) (st : state)
         (out err : str),
    subprocess_run w (cli_command query method kwargs)
      = Returned (mkCompletedProcess 0 out err) ->
    contains SUCCESS out = false ->
    exists (context_data : pyobj) (st' : state),
      execute_cli_search w query method kwargs st
        = (Returns [(lit "response", PyStr (strip out));
                    (lit "context_data", context_data);
                    (lit "success", PyBool true);
                    (lit "method_used", PyStr (lit "cli"))], st').
Proof.
  intros w query method kwargs st out err Hrun Habsent.
  eexists _, _.
  rewrite (cli_exit_zero w query method kwargs st _ Hrun eq_refl).
  cbn [stdout].
  rewrite (extract_absent _ (contains_strip _ _ Habsent)). reflexivity.
Qed.

(** An output that starts with a header and has no marker keeps the header. *)
Lemma C10_witness :
  exists (context_data : pyobj) (st' : state),
    execute_cli_search
      (cli_world (Returned (mkCompletedProcess 0
         (lit "Local Search Response:" ++ [LF] ++ lit "Hello" ++ [LF]) [])))
      (lit "test") (lit "local") handler_kwargs initial
    = (Returns [(lit "response",
                 PyStr (lit "Local Search Response:" ++ [LF] ++ lit "Hello"));
                (lit "context_data", context_data);
                (lit "success", PyBool true);
                (lit "method_used", PyStr (lit "cli"))], st').
Proof.
  exact (C10_header_kept_without_marker
           (cli_world (Returned (mkCompletedProcess 0
              (lit "Local Search Response:" ++ [LF] ++ lit "Hello" ++ [LF]) [])))
           (lit "test") (lit "local") handler_kwargs initial
           (lit "Local Search Response:" ++ [LF] ++ lit "Hello" ++ [LF]) []
           eq_refl eq_refl).
Defined.

(** C3.  A run of the tool that exits with a code other than 0 makes
    [execute_cli_search] return the failure result built from the standard
    error; a run that raises (time out, the process cannot be started) makes
    it return the failure result built from the exception's message, and
    nothing is raised.  A handler that is in its CLI phase then raises the
    HTTP error 500 whose detail is ["CLI Error: "] followed by the standard
    error. *)
Theorem C3_cli_failures :
  forall (w : world),
    (forall (query method : str) (kwargs : Kwargs) (st : state)
            (p : CompletedProcess),
        subprocess_run w (cli_command query method kwargs) = Returned p ->
        returncode p <> 0%Z ->
        fst (execute_cli_search w query method kwargs st)
        = Returns [(lit "response", PyStr (lit "CLI Error: " ++ stderr p));
                   (lit "context_data", PyDict [(lit "error", PyStr (stderr p))]);
                   (lit "success", PyBool false);
                   (lit "method_used", PyStr (lit "cli"))])
    /\ (forall (query method : str) (kwargs : Kwargs) (st : state)
               (message : str),
           subprocess_run w (cli_command query method kwargs) = Raised message ->
           fst (execute_cli_search w query method kwargs st)
           = Returns [(lit "response", PyStr (lit "CLI Exception: " ++ message));
                      (lit "context_data", PyDict [(lit "error", PyStr message)]);
                      (lit "success", PyBool false);
                      (lit "method_used", PyStr (lit "cli"))])
    /\ (forall (v : variant) (query : str) (p : CompletedProcess),
           cli_phase_taken w v query ->
           subprocess_run w (cli_command query (cli_method v) handler_kwargs)
             = Returned p ->
           returncode p <> 0%Z ->
           fst (search w v query initial)
           = Raises (HTTPException 500 (PyStr (lit "CLI Error: " ++ stderr p)))).
Proof.
  intros w. split; [|split].
  - intros query method kwargs st p Hrun Hrc.
    now rewrite (cli_exit_nonzero w query method kwargs st p Hrun Hrc).
  - intros query method kwargs st message Hrun.
    now rewrite (cli_raised w query method kwargs st message Hrun).
  - intros v query p Htaken Hrun Hrc.
    rewrite (search_cli_phase w v query Htaken).
    now apply cli_phase_nonzero.
Qed.

(** The tool exits with code 1 and writes ["boom"] to its standard error. *)
Lemma C3_witness :
  fst (global_search
         (cli_world (Returned (mkCompletedProcess 1 [] (lit "boom"))))
         (lit "test") initial)
  = Raises (HTTPException 500 (PyStr (lit "CLI Error: boom"))).
Proof.
  refine (proj2 (proj2 (C3_cli_failures
            (cli_world (Returned (mkCompletedProcess 1 [] (lit "boom"))))))
            Global (lit "test") (mkCompletedProcess 1 [] (lit "boom")) _ eq_refl _).
  - left. reflexivity.
  - discriminate.
Defined.

(* ===================================================================== *)
(** * Properties of the handlers *)
(* ===================================================================== *)

(** [execute_cli_search] always returns a result of one shape. *)
Lemma cli_result_shape (w : world) (query method : str) (kwargs : Kwargs)
    (st : state) :
  exists (text : str) (context_data : pyobj) (success : bool) (st' : state),
    execute_cli_search w query method kwargs st
    = (Returns [(lit "response", PyStr text);
                (lit "context_data", context_data);
                (lit "success", PyBool success);
                (lit "method_used", PyStr (lit "cli"))], st')
    /\ clock_reads st <= clock_reads st'.
Proof.
  destruct (subprocess_run w (cli_command query method kwargs))
    as [p | message] eqn:Hrun.
  - destruct (Z.eq_dec (returncode p) 0) as [Hrc | Hrc].
    + eexists _, _, _, _. rewrite (cli_exit_zero w _ _ _ st p Hrun Hrc).
      split; [reflexivity | simpl; lia].
    + eexists _, _, _, _. rewrite (cli_exit_nonzero w _ _ _ st p Hrun Hrc).
      split; [reflexivity | simpl; lia].
  - eexists _, _, _, _. rewrite (cli_raised w _ _ _ st message Hrun).
    split; [reflexivity | simpl; lia].
Qed.

(** What the CLI phase makes of the bridge's result. *)
Lemma cli_phase_outcome (w : world) (v : variant) (query : str) (st : state)
    (text : str) (context_data : pyobj) (success : bool) (st' : state) :
  execute_cli_search w query (cli_method v) handler_kwargs st
  = (Returns [(lit "response", PyStr text);
              (lit "context_data", context_data);
              (lit "success", PyBool success);
              (lit "method_used", PyStr (lit "cli"))], st') ->
  cli_phase w v query st
  = if success
    then json_response w
           (PyDict (retag v [(lit "response", PyStr text);
                             (lit "context_data", context_data);
                             (lit "success", PyBool true);
                             (lit "method_used", PyStr (lit "cli"))])) st'
    else (Raises (HTTPException 500 (PyStr text)), st').
Proof.
  intros Hrun. unfold cli_phase, bind. rewrite Hrun.
  destruct success; reflexivity.
Qed.

(** The CLI phase always starts with an untouched clock. *)
Lemma before_cli_clock (w : world) (v : variant) (query : str) :
  clock_reads (before_cli w v query) = 0.
Proof. unfold before_cli. now destruct (GRAPHRAG_API_AVAILABLE w && data_loaded w). Qed.

(** The CLI phase after a run of the tool that exits with code 0: what the
    bridge returns, and what the handler answers with. *)
Lemma cli_phase_exit_zero (w : world) (v : variant) (query : str) (out err : str) :
  subprocess_run w (cli_command query (cli_method v) handler_kwargs)
  = Returned (mkCompletedProcess 0 out err) ->
  fst (execute_cli_search w query (cli_method v) handler_kwargs
         (before_cli w v query))
  = Returns
      [(lit "response", PyStr (extract_clean_response (strip out)));
       (lit "context_data",
        PyDict [(lit "method", PyStr (lit "cli_fallback"));
                (lit "execution_time",
                 PyFloat (PrimFloat.sub (time_time w 1) (time_time w 0)))]);
       (lit "success", PyBool true);
       (lit "method_used", PyStr (lit "cli"))]
  /\ (json_renders w
        (PyDict
           (retag v
              [(lit "response", PyStr (extract_clean_response (strip out)));
               (lit "context_data",
                PyDict [(lit "method", PyStr (lit "cli_fallback"));
                        (lit "execution_time",
                         PyFloat (PrimFloat.sub (time_time w 1) (time_time w 0)))]);
               (lit "success", PyBool true);
               (lit "method_used", PyStr (lit "cli"))]))
      = true ->
      fst (cli_phase w v query (before_cli w v query))
      = Returns (JSONResponse
          (PyDict
             (retag v
                [(lit "response", PyStr (extract_clean_response (strip out)));
                 (lit "context_data",
                  PyDict [(lit "method", PyStr (lit "cli_fallback"));
                          (lit "execution_time",
                           PyFloat (PrimFloat.sub (time_time w 1) (time_time w 0)))]);
                 (lit "success", PyBool true);
                 (lit "method_used", PyStr (lit "cli"))])))).
Proof.
  intros Hrun.
  pose proof (cli_exit_zero w query (cli_method v) handler_kwargs
                (before_cli w v query) _ Hrun eq_refl) as Hbridge.
  rewrite before_cli_clock in Hbridge. simpl stdout in Hbridge.
  split; [now rewrite Hbridge|].
  intros Hrender.
  rewrite (cli_phase_outcome w v query _ _ _ _ _ Hbridge).
  unfold json_response. now rewrite Hrender.
Qed.

(** C4.  In its CLI phase the drift handler runs the tool with the method
    token ["local"], and the result it answers with is the bridge's result
    with [method_used] changed from ["cli"] to ["cli_local_fallback"]: every
    answer it returns has that form, and when the tool exits with code 0 the
    handler does return the bridge's result of that run, changed in this one
    field.  The basic handler does the same with ["cli_basic_fallback"]. *)
Theorem C4_drift_basic_fallback_tags :
  forall (w : world) (query : str),
    (cli_phase_taken w Drift query ->
     (exists before,
         trace (snd (drift_search w query initial))
         = before ++ [SubprocessRun
                        [lit "graphrag"; lit "query"; lit "--root"; lit ".";
                         lit "--method"; lit "local"; lit "--query"; query;
                         lit "--community_level"; lit "2";
                         lit "--response_type"; lit "Multiple Paragraphs"]
                        300 (lit ".")])
     /\ (forall content,
            fst (drift_search w query initial) = Returns (JSONResponse content) ->
            exists text context_data st st',
              execute_cli_search w query (lit "local") handler_kwargs st
              = (Returns [(lit "response", PyStr text);
                          (lit "context_data", context_data);
                          (lit "success", PyBool true);
                          (lit "method_used", PyStr (lit "cli"))], st')
              /\ content
                 = PyDict [(lit "response", PyStr text);
                           (lit "context_data", context_data);
                           (lit "success", PyBool true);
                           (lit "method_used", PyStr (lit "cli_local_fallback"))])
     /\ (forall out err,
            subprocess_run w
              [lit "graphrag"; lit "query"; lit "--root"; lit ".";
               lit "--method"; lit "local"; lit "--query"; query;
               lit "--community_level"; lit "2";
               lit "--response_type"; lit "Multiple Paragraphs"]
            = Returned (mkCompletedProcess 0 out err) ->
            fst (execute_cli_search w query (lit "local") handler_kwargs
                   (before_cli w Drift query))
            = Returns
                [(lit "response", PyStr (extract_clean_response (strip out)));
                 (lit "context_data",
                  PyDict [(lit "method", PyStr (lit "cli_fallback"));
                          (lit "execution_time",
                           PyFloat (PrimFloat.sub (time_time w 1) (time_time w 0)))]);
                 (lit "success", PyBool true);
                 (lit "method_used", PyStr (lit "cli"))]
            /\ (json_renders w
                  (PyDict
                     [(lit "response", PyStr (extract_clean_response (strip out)));
                      (lit "context_data",
                       PyDict [(lit "method", PyStr (lit "cli_fallback"));
                               (lit "execution_time",
                                PyFloat (PrimFloat.sub (time_time w 1) (time_time w 0)))]);
                      (lit "success", PyBool true);
                      (lit "method_used", PyStr (lit "cli_local_fallback"))])
                = true ->
                fst (drift_search w query initial)
                = Returns (JSONResponse
                    (PyDict
                       [(lit "response", PyStr (extract_clean_response (strip out)));
                        (lit "context_data",
                         PyDict [(lit "method", PyStr (lit "cli_fallback"));
                                 (lit "execution_time",
                                  PyFloat (PrimFloat.sub (time_time w 1) (time_time w 0)))]);
                        (lit "success", PyBool true);
                        (lit "method_used", PyStr (lit "cli_local_fallback"))])))))
    /\ (cli_phase_taken w Basic query ->
        (exists before,
            trace (snd (basic_search w query initial))
            = before ++ [SubprocessRun
                           [lit "graphrag"; lit "query"; lit "--root"; lit ".";
                            lit "--method"; lit "local"; lit "--query"; query;
                            lit "--community_level"; lit "2";
                            lit "--response_type"; lit "Multiple Paragraphs"]
                           300 (lit ".")])
        /\ (forall content,
               fst (basic_search w query initial) = Returns (JSONResponse content) ->
               exists text context_data st st',
                 execute_cli_search w query (lit "local") handler_kwargs st
                 = (Returns [(lit "response", PyStr text);
                             (lit "context_data", context_data);
                             (lit "success", PyBool true);
                             (lit "method_used", PyStr (lit "cli"))], st')
                 /\ content
                    = PyDict [(lit "response", PyStr text);
                              (lit "context_data", context_data);
                              (lit "success", PyBool true);
                              (lit "method_used", PyStr (lit "cli_basic_fallback"))])
        /\ (forall out err,
               subprocess_run w
                 [lit "graphrag"; lit "query"; lit "--root"; lit ".";
                  lit "--method"; lit "local"; lit "--query"; query;
                  lit "--community_level"; lit "2";
                  lit "--response_type"; lit "Multiple Paragraphs"]
               = Returned (mkCompletedProcess 0 out err) ->
               fst (execute_cli_search w query (lit "local") handler_kwargs
                      (before_cli w Basic query))
               = Returns
                   [(lit "response", PyStr (extract_clean_response (strip out)));
                    (lit "context_data",
                     PyDict [(lit "method", PyStr (lit "cli_fallback"));
                             (lit "execution_time",
                              PyFloat (PrimFloat.sub (time_time w 1) (time_time w 0)))]);
                    (lit "success", PyBool true);
                    (lit "method_used", PyStr (lit "cli"))]
               /\ (json_renders w
                     (PyDict
                        [(lit "response", PyStr (extract_clean_response (strip out)));
                         (lit "context_data",
                          PyDict [(lit "method", PyStr (lit "cli_fallback"));
                                  (lit "execution_time",
                                   PyFloat (PrimFloat.sub (time_time w 1) (time_time w 0)))]);
                         (lit "success", PyBool true);
                         (lit "method_used", PyStr (lit "cli_basic_fallback"))])
                   = true ->
                   fst (basic_search w query initial)
                   = Returns (JSONResponse
                       (PyDict
                          [(lit "response", PyStr (extract_clean_response (strip out)));
                           (lit "context_data",
                            PyDict [(lit "method", PyStr (lit "cli_fallback"));
                                    (lit "execution_time",
                                     PyFloat (PrimFloat.sub (time_time w 1) (time_time w 0)))]);
                           (lit "success", PyBool true);
                           (lit "method_used", PyStr (lit "cli_basic_fallback"))]))))).
Proof.
  intros w query. split; intros Htaken.
  - change (drift_search w query) with (search w Drift query).
    rewrite (search_cli_phase w Drift query Htaken). split; [|split].
    + eexists. apply (cli_phase_trace w Drift query).
    + intros content Hcontent.
      destruct (cli_result_shape w query (cli_method Drift) handler_kwargs
                  (before_cli w Drift query))
        as (text & context_data & success & st' & Hrun & _).
      rewrite (cli_phase_outcome w Drift query _ _ _ _ _ Hrun) in Hcontent.
      destruct success; [|discriminate].
      exists text, context_data, (before_cli w Drift query), st'.
      split; [exact Hrun|].
      unfold json_response in Hcontent.
      destruct (json_renders w _); [|discriminate].
      injection Hcontent as <-. reflexivity.
    + intros out err Hrun.
      apply (cli_phase_exit_zero w Drift query out err Hrun).
  - change (basic_search w query) with (search w Basic query).
    rewrite (search_cli_phase w Basic query Htaken). split; [|split].
    + eexists. apply (cli_phase_trace w Basic query).
    + intros content Hcontent.
      destruct (cli_result_shape w query (cli_method Basic) handler_kwargs
                  (before_cli w Basic query))
        as (text & context_data & success & st' & Hrun & _).
      rewrite (cli_phase_outcome w Basic query _ _ _ _ _ Hrun) in Hcontent.
      destruct success; [|discriminate].
      exists text, context_data, (before_cli w Basic query), st'.
      split; [exact Hrun|].
      unfold json_response in Hcontent.
      destruct (json_renders w _); [|discriminate].
      injection Hcontent as <-. reflexivity.
    + intros out err Hrun.
      apply (cli_phase_exit_zero w Basic query out err Hrun).
Qed.

(** The engine is not available and the tool prints ["Hi"]: both handlers
    answer with the bridge's result under their own tag. *)
Lemma C4_witness :
  fst (drift_search
         (cli_world (Returned (mkCompletedProcess 0 (lit "Hi") [])))
         (lit "test") initial)
  = Returns (JSONResponse
      (PyDict
         [(lit "response", PyStr (lit "Hi"));
          (lit "context_data",
           PyDict [(lit "method", PyStr (lit "cli_fallback"));
                   (lit "execution_time", PyFloat PrimFloat.zero)]);
          (lit "success", PyBool true);
          (lit "method_used", PyStr (lit "cli_local_fallback"))]))
  /\ fst (basic_search
            (cli_world (Returned (mkCompletedProcess 0 (lit "Hi") [])))
            (lit "test") initial)
     = Returns (JSONResponse
         (PyDict
            [(lit "response", PyStr (lit "Hi"));
             (lit "context_data",
              PyDict [(lit "method", PyStr (lit "cli_fallback"));
                      (lit "execution_time", PyFloat PrimFloat.zero)]);
             (lit "success", PyBool true);
             (lit "method_used", PyStr (lit "cli_basic_fallback"))])).
Proof.
  split.
  - exact (proj2 (proj2 (proj2 (proj1 (C4_drift_basic_fallback_tags
             (cli_world (Returned (mkCompletedProcess 0 (lit "Hi") [])))
             (lit "test")) (or_introl eq_refl)))
             (lit "Hi") [] eq_refl) eq_refl).
  - exact (proj2 (proj2 (proj2 (proj2 (C4_drift_basic_fallback_tags
             (cli_world (Returned (mkCompletedProcess 0 (lit "Hi") [])))
             (lit "test")) (or_introl eq_refl)))
             (lit "Hi") [] eq_refl) eq_refl).
Defined.






Lemma str_eqb_eq (a b : str) : str_eqb a b = true <-> a = b.
Proof.
  revert b; induction a as [|x a IH]; intros [|y b]; simpl;
    try (split; [discriminate | congruence]); [tauto|].
  rewrite andb_true_iff, N.eqb_eq, IH.
  split; [intros [-> ->]; reflexivity | intros [= -> ->]; tauto].
Qed.

Lemma str_eqb_neq (a b : str) : a <> b -> str_eqb a b = false.
Proof.
  intros H. destruct (str_eqb a b) eqn:E; [|reflexivity].
  apply str_eqb_eq in E. contradiction.
Qed.

(** C9.  [/query] answers as the search endpoint its [method] names, with
    ["global"] for a missing [method]; any other [method] raises the HTTP
    error 400 whose detail starts with ["Invalid method"], as for
    [/query?q=test&method=bogus]. *)
Theorem C9_query_dispatch :
  forall (w : world) (q : str),
    query_get w q None = global_search w q
    /\ query_get w q (Some (lit "global")) = global_search w q
    /\ query_get w q (Some (lit "local")) = local_search w q
    /\ query_get w q (Some (lit "drift")) = drift_search w q
    /\ query_get w q (Some (lit "basic")) = basic_search w q
    /\ (forall (method : str) (st : state),
           method <> lit "global" -> method <> lit "local" ->
           method <> lit "drift" -> method <> lit "basic" ->
           exists detail,
             query_get w q (Some method) st
             = (Raises (HTTPException 400 (PyStr detail)), st)
             /\ startswith (lit "Invalid method") detail = true)
    /\ (forall st,
           fst (query_get w (lit "test") (Some (lit "bogus")) st)
           = Raises (HTTPException 400
               (PyStr (lit "Invalid method. Use: global, local, drift, or basic")))).
Proof.
  intros w q. repeat (split; [reflexivity|]). split.
  - intros method st Hglobal Hlocal Hdrift Hbasic.
    exists (lit "Invalid method. Use: global, local, drift, or basic").
    unfold query_get.
    rewrite (str_eqb_neq _ _ Hglobal), (str_eqb_neq _ _ Hlocal),
            (str_eqb_neq _ _ Hdrift), (str_eqb_neq _ _ Hbasic).
    split; reflexivity.
  - reflexivity.
Qed.

(** The request [/query?q=test&method=bogus]. *)
Lemma C9_witness :
  exists detail,
    query_get failing_engine_world (lit "test") (Some (lit "bogus")) initial
    = (Raises (HTTPException 400 (PyStr detail)), initial)
    /\ startswith (lit "Invalid method") detail = true.
Proof.
  refine (proj1 (proj2 (proj2 (proj2 (proj2 (proj2
            (C9_query_dispatch failing_engine_world (lit "test")))))))
            (lit "bogus") initial _ _ _ _); discriminate.
Defined.

(** The handlers leave every item of the bridge's result but [method_used]
    as it is. *)
Lemma retag_shape (v : variant) (text : str) (context_data : pyobj)
    (success : bool) :
  exists method_used,
    retag v [(lit "response", PyStr text);
             (lit "context_data", context_data);
             (lit "success", PyBool success);
             (lit "method_used", PyStr (lit "cli"))]
    = [(lit "response", PyStr text);
       (lit "context_data", context_data);
       (lit "success", PyBool success);
       (lit "method_used", PyStr method_used)].
Proof. destruct v; eexists; reflexivity. Qed.

(** C7, as stated, fails: the tool exits with code 0 and prints nothing, and
    the client gets a result with [success] true and an empty [response]. *)
Lemma C7_counterexample :
  fst (global_search (cli_world (Returned (mkCompletedProcess 0 [] [])))
                     (lit "test") initial)
  = Returns (JSONResponse
      (PyDict [(lit "response", PyStr []);
               (lit "context_data",
                PyDict [(lit "method", PyStr (lit "cli_fallback"));
                        (lit "execution_time", PyFloat PrimFloat.zero)]);
               (lit "success", PyBool true);
               (lit "method_used", PyStr (lit "cli"))])).
Proof. reflexivity. Qed.

(** C7, amended.  Every result the bridge hands to a handler carries a
    [success] flag and a text [response].  With [success] false the handler
    raises the HTTP error 500 whose detail is that text.  With [success] true
    the handler answers with the result (its [method_used] retagged by the
    drift and basic handlers), whatever the text is, provided the result
    serializes.  A result built in the API phase has [success] true and the
    engine's response, and is the handler's answer. *)
Theorem C7_success_flag_and_http_layer :
  forall (w : world) (v : variant) (query : str),
    (cli_phase_taken w v query ->
     exists (text : str) (context_data : pyobj) (success : bool) (st' : state),
       execute_cli_search w query (cli_method v) handler_kwargs
                          (before_cli w v query)
       = (Returns [(lit "response", PyStr text);
                   (lit "context_data", context_data);
                   (lit "success", PyBool success);
                   (lit "method_used", PyStr (lit "cli"))], st')
       /\ (success = false ->
           fst (search w v query initial)
           = Raises (HTTPException 500 (PyStr text)))
       /\ (success = true ->
           exists method_used,
             let content :=
               PyDict [(lit "response", PyStr text);
                       (lit "context_data", context_data);
                       (lit "success", PyBool true);
                       (lit "method_used", PyStr method_used)] in
             (json_renders w content = true ->
              fst (search w v query initial) = Returns (JSONResponse content))
             /\ (json_renders w content = false ->
                 fst (search w v query initial) = Raises JSONEncodeError)))
    /\ (forall response context,
           GRAPHRAG_API_AVAILABLE w && data_loaded w = true ->
           api w v query = Returned (response, context) ->
           json_renders w (response_dict response context) = true ->
           fst (search w v query initial)
           = Returns (JSONResponse
               (PyDict [(lit "response", response);
                        (lit "context_data", process_context_data context);
                        (lit "method_used", PyStr (lit "api"));
                        (lit "success", PyBool true)]))).
Proof.
  intros w v query. split.
  - intros Htaken.
    destruct (cli_result_shape w query (cli_method v) handler_kwargs
                (before_cli w v query))
      as (text & context_data & success & st' & Hrun & _).
    exists text, context_data, success, st'. split; [exact Hrun|].
    rewrite (search_cli_phase w v query Htaken),
            (cli_phase_outcome w v query _ _ _ _ _ Hrun).
    split; intros ->; [reflexivity|].
    destruct (retag_shape v text context_data true) as [method_used ->].
    exists method_used. cbn zeta. unfold json_response.
    split; intros ->; reflexivity.
  - intros response context Hflags Hreturned Hrender.
    now rewrite (search_api_phase w v query response context Hflags Hreturned Hrender).
Qed.

(** The tool fails with ["boom"]; the drift handler surfaces it. *)
Lemma C7_witness :
  exists (text : str) (context_data : pyobj) (st' : state),
    execute_cli_search
      (cli_world (Returned (mkCompletedProcess 1 [] (lit "boom"))))
      (lit "test") (lit "local") handler_kwargs initial
    = (Returns [(lit "response", PyStr text);
                (lit "context_data", context_data);
                (lit "success", PyBool false);
                (lit "method_used", PyStr (lit "cli"))], st')
    /\ fst (search (cli_world (Returned (mkCompletedProcess 1 [] (lit "boom"))))
                   Drift (lit "test") initial)
       = Raises (HTTPException 500 (PyStr text)).
Proof.
  destruct (proj1 (C7_success_flag_and_http_layer
                     (cli_world (Returned (mkCompletedProcess 1 [] (lit "boom"))))
                     Drift (lit "test")) (or_introl eq_refl))
    as (text & context_data & success & st' & Hrun & Hfalse & _).
  exists text, context_data, st'.
  assert (Hsuccess : success = false).
  { cbv in Hrun. injection Hrun as _ _ Hs _. now rewrite <- Hs. }
  subst success. split; [exact Hrun | exact (Hfalse eq_refl)].
Defined.

(* ===================================================================== *)
(** * Properties of the context normalizer *)
(* ===================================================================== *)

(** Induction over values, with the hypothesis for every item of a list and
    every value of a dict. *)
Lemma pyobj_nested_ind (P : pyobj -> Prop)
    (Hscalar : forall v, P (PyScalar v))
    (Hlist : forall items, Forall P items -> P (PyList items))
    (Hdict : forall items, Forall (fun kv => P (snd kv)) items -> P (PyDict items))
    (Hdf : forall df, P (PyDataFrame df)) :
  forall v, P v.
Proof.
  fix IH 1. intros [v | items | items | df].
  - apply Hscalar.
  - apply Hlist. induction items as [|x items IHitems]; constructor.
    + apply IH.
    + exact IHitems.
  - apply Hdict. induction items as [|[k x] items IHitems]; constructor.
    + simpl. apply IH.
    + exact IHitems.
  - apply Hdf.
Qed.

(** ** Dicts *)

Lemma dict_set_values (P : pyobj -> Prop) (d : dict) (k : str) (v : pyobj) :
  Forall (fun kv => P (snd kv)) d -> P v ->
  Forall (fun kv => P (snd kv)) (dict_set d k v).
Proof.
  intros Hd Hv. induction Hd as [|[k' v'] d Hkv Hd IH]; simpl.
  - constructor; [assumption | constructor].
  - destruct (str_eqb k' k); constructor; assumption.
Qed.

Lemma dict_of_values (P : pyobj -> Prop) (pairs : list (str * pyobj)) :
  Forall (fun kv => P (snd kv)) pairs ->
  Forall (fun kv => P (snd kv)) (dict_of pairs).
Proof.
  unfold dict_of. generalize (@nil (str * pyobj)) (Forall_nil (fun kv : str * pyobj => P (snd kv))).
  induction pairs as [|[k v] pairs IH]; intros acc Hacc Hpairs; simpl.
  - exact Hacc.
  - inversion Hpairs as [|? ? Hv Hrest]; subst.
    apply IH; [|assumption]. now apply dict_set_values.
Qed.

Lemma dict_set_keys (d : dict) (k : str) (v : pyobj) :
  incl (keys (dict_set d k v)) (k :: keys d).
Proof.
  induction d as [|[k' v'] d IH]; simpl.
  - apply incl_refl.
  - destruct (str_eqb k' k); simpl.
    + apply incl_tl, incl_refl.
    + intros x [<- | Hx]; [right; now left|].
      destruct (IH x Hx) as [<- | Hin]; [now left | right; now right].
Qed.

Lemma dict_of_keys (pairs : list (str * pyobj)) :
  incl (keys (dict_of pairs)) (map fst pairs).
Proof.
  unfold dict_of.
  assert (H : forall acc, incl (keys (fold_left
              (fun d kv => dict_set d (fst kv) (snd kv)) pairs acc))
              (keys acc ++ map fst pairs)).
  { induction pairs as [|[k v] pairs IH]; intros acc; simpl.
    - rewrite app_nil_r. apply incl_refl.
    - intros x Hx. apply IH in Hx. apply in_app_or in Hx as [Hx | Hx].
      + apply dict_set_keys in Hx as [<- | Hx].
        * apply in_or_app. right. now left.
        * apply in_or_app. now left.
      + apply in_or_app. right. now right. }
  exact (H []).
Qed.

Lemma dict_set_fresh (d : dict) (k : str) (v : pyobj) :
  ~ In k (keys d) -> dict_set d k v = d ++ [(k, v)].
Proof.
  induction d as [|[k' v'] d IH]; intros Hfresh; simpl; [reflexivity|].
  rewrite str_eqb_neq by (intros ->; apply Hfresh; now left).
  rewrite IH; [reflexivity|]. intros Hin. apply Hfresh. now right.
Qed.

(** Pairs with distinct keys make the dict that lists them. *)
Lemma dict_of_nodup (pairs : list (str * pyobj)) :
  NoDup (map fst pairs) -> dict_of pairs = pairs.
Proof.
  unfold dict_of.
  assert (H : forall acc, NoDup (map fst (acc ++ pairs)) ->
              fold_left (fun d kv => dict_set d (fst kv) (snd kv)) pairs acc
              = acc ++ pairs).
  { induction pairs as [|[k v] pairs IH]; intros acc Hnodup; simpl.
    - now rewrite app_nil_r.
    - rewrite dict_set_fresh.
      + rewrite IH; rewrite <- app_assoc; [reflexivity | exact Hnodup].
      + rewrite map_app in Hnodup. simpl in Hnodup.
        apply NoDup_remove_2 in Hnodup. intros Hin. apply Hnodup.
        apply in_or_app. now left. }
  exact (H []).
Qed.

Lemma combine_keys_nodup (cols : list str) (vals : list pyobj) :
  NoDup cols -> NoDup (map fst (combine cols vals)).
Proof.
  intros Hcols. revert vals.
  induction Hcols as [|c cols Hc Hcols IH]; intros [|v vals]; simpl;
    try constructor.
  - intros Hin. apply Hc. apply in_map_iff in Hin as [[c' v'] [<- Hin]].
    now apply in_combine_l in Hin.
  - apply IH.
Qed.

Lemma combine_keys_incl (cols : list str) (vals : list pyobj) :
  incl (map fst (combine cols vals)) cols.
Proof.
  intros k Hin. apply in_map_iff in Hin as [[c v] [<- Hin]].
  now apply in_combine_l in Hin.
Qed.

Lemma dict_get_map (f : pyobj -> pyobj) (d : dict) (k : str) :
  dict_get (map (fun kv => (fst kv, f (snd kv))) d) k
  = option_map f (dict_get d k).
Proof.
  induction d as [|[k' v] d IH]; simpl; [reflexivity|].
  destruct (str_eqb k' k); [reflexivity | exact IH].
Qed.

(** ** Tables *)

(** The records of a table: one dict per row. *)
Lemma to_dict_records_rows (df : DataFrame) :
  exists records,
    to_dict_records df = PyList (map PyDict records)
    /\ length records = length (rows df)
    /\ Forall (fun record => incl (keys record) (columns df)) records.
Proof.
  exists (map (fun row => dict_of (combine (columns df) row)) (rows df)).
  split; [|split].
  - unfold to_dict_records. now rewrite map_map.
  - apply length_map.
  - apply Forall_forall. intros record Hin.
    apply in_map_iff in Hin as [row [<- _]].
    eapply incl_tran; [apply dict_of_keys | apply combine_keys_incl].
Qed.

Lemma to_dict_records_nodup (df : DataFrame) :
  NoDup (columns df) ->
  to_dict_records df
  = PyList (map (fun row => PyDict (combine (columns df) row)) (rows df)).
Proof.
  intros Hcols. unfold to_dict_records. f_equal.
  apply map_ext. intros row. f_equal.
  apply dict_of_nodup. now apply combine_keys_nodup.
Qed.

(** The values of a record are cells of its row. *)
Lemma record_values (P : pyobj -> Prop) (cols : list str) (row : list pyobj) :
  Forall P row ->
  Forall (fun kv => P (snd kv)) (dict_of (combine cols row)).
Proof.
  intros Hrow. apply dict_of_values. apply Forall_forall.
  intros [k v] Hin. apply in_combine_r in Hin. simpl.
  rewrite Forall_forall in Hrow. now apply Hrow.
Qed.

Lemma forallb_Forall {A : Type} (f : A -> bool) (l : list A) :
  forallb f l = true <-> Forall (fun x => f x = true) l.
Proof. rewrite forallb_forall, Forall_forall. reflexivity. Qed.

Lemma forallb_map {A B : Type} (f : B -> bool) (g : A -> B) (l : list A) :
  forallb f (map g l) = forallb (fun x => f (g x)) l.
Proof. induction l as [|x l IH]; simpl; [reflexivity | now rewrite IH]. Qed.

(** The records of a table whose cells hold no table hold no table. *)
Lemma to_dict_records_flat (df : DataFrame) :
  forallb (forallb no_tabular) (rows df) = true ->
  no_tabular (to_dict_records df) = true.
Proof.
  intros Hcells. unfold to_dict_records. simpl. apply forallb_Forall, Forall_forall.
  intros record Hin. apply in_map_iff in Hin as [row [<- Hrow]].
  simpl. apply forallb_Forall.
  apply (record_values (fun x => no_tabular x = true)).
  rewrite forallb_forall in Hcells. specialize (Hcells row Hrow).
  now apply forallb_Forall in Hcells.
Qed.

(** ** [recursively_convert] *)

Lemma recursively_convert_flat (v : pyobj) :
  flat_tables v = true -> no_tabular (recursively_convert v) = true.
Proof.
  induction v as [a | items IH | items IH | df] using pyobj_nested_ind; simpl.
  - trivial.
  - intros H. rewrite forallb_map. apply forallb_Forall.
    apply forallb_Forall in H. rewrite Forall_forall in *. auto.
  - intros H. rewrite forallb_map. apply forallb_Forall.
    apply forallb_Forall in H. rewrite Forall_forall in *. simpl. auto.
  - apply to_dict_records_flat.
Qed.

(** JSON values are left as they are. *)
Lemma recursively_convert_fixed (v : pyobj) :
  json_only v = true -> recursively_convert v = v.
Proof.
  induction v as [a | items IH | items IH | df] using pyobj_nested_ind; simpl.
  - reflexivity.
  - intros H. f_equal. apply forallb_Forall in H.
    rewrite <- (map_id items) at 2. apply map_ext_in.
    rewrite Forall_forall in *. auto.
  - intros H. f_equal. apply forallb_Forall in H.
    rewrite <- (map_id items) at 2. apply map_ext_in.
    rewrite Forall_forall in *. intros [k x] Hin. simpl. f_equal.
    apply (IH (k, x) Hin). apply (H (k, x) Hin).
  - discriminate.
Qed.

Lemma recursively_convert_path (v : pyobj) (path : list str) (x : pyobj) :
  lookup_path v path = Some x ->
  lookup_path (recursively_convert v) path = Some (recursively_convert x).
Proof.
  revert v. induction path as [|k path IH]; intros v; simpl.
  - now intros [= ->].
  - destruct v as [a | items | items | df]; try discriminate.
    simpl. rewrite dict_get_map.
    destruct (dict_get items k) as [y|]; [|discriminate]. simpl. apply IH.
Qed.

(** A JSON value holds no table. *)
Lemma json_only_no_tabular (v : pyobj) :
  json_only v = true -> no_tabular v = true.
Proof.
  induction v as [a | items IH | items IH | df] using pyobj_nested_ind; simpl.
  - trivial.
  - intros H. apply forallb_Forall. apply forallb_Forall in H.
    rewrite Forall_forall in *. auto.
  - intros H. apply forallb_Forall. apply forallb_Forall in H.
    rewrite Forall_forall in *. auto.
  - trivial.
Qed.

(** C5, as stated, fails: the specification's normalizer maps the number
    inside the list to the null marker, the program returns it unchanged. *)
Lemma C5_counterexample :
  process_context_data (PyList [PyScalar (SInt 5)]) = PyList [PyScalar (SInt 5)]
  /\ normalize_spec (PyList [PyScalar (SInt 5)]) = PyList [PyNone]
  /\ PyList [PyScalar (SInt 5)] <> PyList [PyNone].
Proof. repeat split. discriminate. Qed.

(** C5, amended.  [process_context_data] returns a string unchanged; turns
    a table into the list of its rows as dicts keyed by the column names;
    converts the items of a list in order and the values of a dict under
    their keys with [recursively_convert]; and maps every other value to
    [None].  [recursively_convert], which does the work inside lists and
    dicts, treats tables, lists and dicts the same way and returns every other
    value, strings and all, unchanged. *)
Theorem C5_normalizer_cases :
  (forall s, process_context_data (PyStr s) = PyStr s)
  /\ (forall df,
         (exists records,
             process_context_data (PyDataFrame df) = PyList (map PyDict records)
             /\ length records = length (rows df)
             /\ Forall (fun record => incl (keys record) (columns df)) records)
         /\ (NoDup (columns df) ->
             process_context_data (PyDataFrame df)
             = PyList (map (fun row => PyDict (combine (columns df) row))
                           (rows df))))
  /\ (forall items,
         process_context_data (PyList items)
         = PyList (map recursively_convert items))
  /\ (forall items,
         exists items',
           process_context_data (PyDict items) = PyDict items'
           /\ keys items' = keys items
           /\ forall k,
               dict_get items' k = option_map recursively_convert (dict_get items k))
  /\ (forall a, (forall s, a <> SStr s) -> process_context_data (PyScalar a) = PyNone)
  /\ (forall a, recursively_convert (PyScalar a) = PyScalar a)
  /\ (forall df,
         recursively_convert (PyDataFrame df) = process_context_data (PyDataFrame df))
  /\ (forall items,
         recursively_convert (PyList items) = process_context_data (PyList items))
  /\ (forall items,
         recursively_convert (PyDict items) = process_context_data (PyDict items)).
Proof.
  split; [reflexivity|].
  split; [intros df; split;
          [apply to_dict_records_rows | apply to_dict_records_nodup]|].
  split; [reflexivity|].
  split.
  { intros items. eexists. split; [reflexivity|]. split.
    - unfold keys. rewrite map_map. reflexivity.
    - intros k. apply dict_get_map. }
  split.
  { intros a Ha. destruct a; try reflexivity. now destruct (Ha s). }
  repeat split.
Qed.

(** A table with two columns and one row, inside and outside a list. *)
Lemma C5_witness :
  process_context_data
    (PyDataFrame (mkDataFrame [lit "id"; lit "title"]
                              [[PyScalar (SInt 1); PyStr (lit "a")]]))
  = PyList [PyDict [(lit "id", PyScalar (SInt 1)); (lit "title", PyStr (lit "a"))]].
Proof.
  refine (proj2 (proj1 (proj2 C5_normalizer_cases)
                   (mkDataFrame [lit "id"; lit "title"]
                                [[PyScalar (SInt 1); PyStr (lit "a")]])) _).
  repeat constructor; simpl; intuition discriminate.
Defined.

(** C6.  On a value made of JSON primitives, lists and dicts only,
    normalizing twice gives what normalizing once gives.  A table found
    under a path of keys in nested dicts becomes, under the same path, what
    [to_dict(orient="records")] makes of it: the list of its rows, each row
    the dict of its cells under the column names. *)
Theorem C6_normalizer_idempotent_and_nested_table :
  (forall x,
      json_only x = true ->
      process_context_data (process_context_data x) = process_context_data x)
  /\ (forall v path df,
         path <> [] ->
         lookup_path v path = Some (PyDataFrame df) ->
         lookup_path (process_context_data v) path = Some (to_dict_records df)
         /\ (exists records,
                to_dict_records df = PyList (map PyDict records)
                /\ length records = length (rows df)
                /\ Forall (fun record => incl (keys record) (columns df)) records)
         /\ (NoDup (columns df) ->
             lookup_path (process_context_data v) path
             = Some (PyList (map (fun row => PyDict (combine (columns df) row))
                                 (rows df))))).
Proof.
  split.
  - intros x Hx. destruct x as [[| | | | |] | items | items | df];
      try reflexivity; try discriminate.
    + change (process_context_data (PyList items))
        with (recursively_convert (PyList items)).
      rewrite (recursively_convert_fixed _ Hx).
      apply (recursively_convert_fixed _ Hx).
    + change (process_context_data (PyDict items))
        with (recursively_convert (PyDict items)).
      rewrite (recursively_convert_fixed _ Hx).
      apply (recursively_convert_fixed _ Hx).
  - intros v path df Hpath Hlookup.
    assert (Hconverted : lookup_path (process_context_data v) path
                         = Some (to_dict_records df)).
    { destruct path as [|k path]; [congruence|].
      destruct v as [a | items | items | df']; try discriminate.
      change (process_context_data (PyDict items))
        with (recursively_convert (PyDict items)).
      now rewrite (recursively_convert_path _ _ _ Hlookup). }
    split; [exact Hconverted|]. split; [apply to_dict_records_rows|].
    intros Hcols. now rewrite Hconverted, (to_dict_records_nodup df Hcols).
Qed.

(** A dict of JSON values, normalized twice; and a table of two rows under
    ["context"]["reports"]. *)
Lemma C6_witness :
  process_context_data
    (process_context_data
       (PyDict [(lit "reports", PyList [PyScalar (SInt 1); PyStr (lit "a")])]))
  = process_context_data
      (PyDict [(lit "reports", PyList [PyScalar (SInt 1); PyStr (lit "a")])])
  /\ lookup_path
       (process_context_data
          (PyDict [(lit "context",
                    PyDict [(lit "reports",
                             PyDataFrame
                               (mkDataFrame [lit "id"; lit "title"]
                                  [[PyScalar (SInt 1); PyStr (lit "a")];
                                   [PyScalar (SInt 2); PyStr (lit "b")]]))])]))
       [lit "context"; lit "reports"]
     = Some (PyList [PyDict [(lit "id", PyScalar (SInt 1));
                             (lit "title", PyStr (lit "a"))];
                     PyDict [(lit "id", PyScalar (SInt 2));
                             (lit "title", PyStr (lit "b"))]]).
Proof.
  split.
  - exact (proj1 C6_normalizer_idempotent_and_nested_table
                 (PyDict [(lit "reports",
                           PyList [PyScalar (SInt 1); PyStr (lit "a")])])
                 eq_refl).
  - refine (proj2 (proj2 (proj2 C6_normalizer_idempotent_and_nested_table
              (PyDict [(lit "context",
                        PyDict [(lit "reports",
                                 PyDataFrame
                                   (mkDataFrame [lit "id"; lit "title"]
                                      [[PyScalar (SInt 1); PyStr (lit "a")];
                                       [PyScalar (SInt 2); PyStr (lit "b")]]))])])
              [lit "context"; lit "reports"]
              (mkDataFrame [lit "id"; lit "title"]
                 [[PyScalar (SInt 1); PyStr (lit "a")];
                  [PyScalar (SInt 2); PyStr (lit "b")]])
              _ eq_refl)) _).
    + discriminate.
    + repeat constructor; simpl; intuition discriminate.
Defined.

(* ===================================================================== *)
(** * The API phase *)
(* ===================================================================== *)

(** C8, as stated, fails: the engine's call succeeds, its context holds an
    object [json.dumps] refuses (a time stamp, say) under a key, building the
    response raises inside the [try], and the answer comes from the CLI
    phase with [method_used] ["cli"]. *)
Lemma C8_counterexample :
  api (engine_world (PyStr (lit "answer"))
                    (PyDict [(lit "generated_at", PyScalar (SOpaque 0))]))
      Global (lit "test")
  = Returned (PyStr (lit "answer"),
              PyDict [(lit "generated_at", PyScalar (SOpaque 0))])
  /\ search (engine_world (PyStr (lit "answer"))
                          (PyDict [(lit "generated_at", PyScalar (SOpaque 0))]))
            Global (lit "test") initial
     = (Returns (JSONResponse
          (PyDict [(lit "response", PyStr (lit "Hi"));
                   (lit "context_data",
                    PyDict [(lit "method", PyStr (lit "cli_fallback"));
                            (lit "execution_time", PyFloat PrimFloat.zero)]);
                   (lit "success", PyBool true);
                   (lit "method_used", PyStr (lit "cli"))])),
        mkState [ApiCall Global (lit "test");
                 SubprocessRun (cli_command (lit "test") (lit "global") handler_kwargs)
                               300 (lit ".")] 2).
Proof. split; reflexivity. Qed.

(** What [json_dumps_accepts] accepts is JSON. *)
Lemma json_dumps_accepts_json_only (v : pyobj) :
  json_dumps_accepts v = true -> json_only v = true.
Proof.
  induction v as [a | items IH | items IH | df] using pyobj_nested_ind; simpl.
  - now destruct a.
  - intros H. apply forallb_Forall. apply forallb_Forall in H.
    rewrite Forall_forall in *. auto.
  - intros H. apply forallb_Forall. apply forallb_Forall in H.
    rewrite Forall_forall in *. auto.
  - trivial.
Qed.

(** C8, amended.  When the engine's call succeeds and the response built
    from what it returned serializes to JSON, the handler answers with that
    response and calls nothing else: its [method_used] is ["api"], and its
    [context_data], the normalized context, is made of JSON primitives, lists
    and dicts only, with no table anywhere in reach. *)
Theorem C8_api_response :
  forall (w : world) (v : variant) (query : str) (response context : pyobj),
    GRAPHRAG_API_AVAILABLE w = true -> data_loaded w = true ->
    api w v query = Returned (response, context) ->
    json_renders w (response_dict response context) = true ->
    renders_json_only w ->
    search w v query initial
    = (Returns (JSONResponse
         (PyDict [(lit "response", response);
                  (lit "context_data", process_context_data context);
                  (lit "method_used", PyStr (lit "api"));
                  (lit "success", PyBool true)])),
       mkState [ApiCall v query] 0)
    /\ json_only (process_context_data context) = true
    /\ no_tabular (process_context_data context) = true.
Proof.
  intros w v query response context Havailable Hloaded Hreturned Hrender Hjson.
  split.
  - apply search_api_phase; try assumption. now rewrite Havailable, Hloaded.
  - assert (Hcontext : json_only (process_context_data context) = true).
    { specialize (Hjson _ Hrender). unfold response_dict in Hjson.
      cbn [json_only forallb snd] in Hjson.
      apply andb_prop in Hjson as [_ Hjson].
      now apply andb_prop in Hjson as [Hjson _]. }
    split; [exact Hcontext | now apply json_only_no_tabular].
Qed.

(** The engine returns a dict with a table under ["reports"]. *)
Lemma C8_witness :
  search (engine_world
            (PyStr (lit "answer"))
            (PyDict [(lit "reports",
                      PyDataFrame (mkDataFrame [lit "id"]
                                     [[PyScalar (SInt 1)]; [PyScalar (SInt 2)]]))]))
         Local (lit "test") initial
  = (Returns (JSONResponse
       (PyDict [(lit "response", PyStr (lit "answer"));
                (lit "context_data",
                 PyDict [(lit "reports",
                          PyList [PyDict [(lit "id", PyScalar (SInt 1))];
                                  PyDict [(lit "id", PyScalar (SInt 2))]])]);
                (lit "method_used", PyStr (lit "api"));
                (lit "success", PyBool true)])),
     mkState [ApiCall Local (lit "test")] 0)
  /\ json_only
       (process_context_data
          (PyDict [(lit "reports",
                    PyDataFrame (mkDataFrame [lit "id"]
                                   [[PyScalar (SInt 1)]; [PyScalar (SInt 2)]]))]))
     = true
  /\ no_tabular
       (process_context_data
          (PyDict [(lit "reports",
                    PyDataFrame (mkDataFrame [lit "id"]
                                   [[PyScalar (SInt 1)]; [PyScalar (SInt 2)]]))]))
     = true.
Proof.
  exact (C8_api_response
           (engine_world
              (PyStr (lit "answer"))
              (PyDict [(lit "reports",
                        PyDataFrame (mkDataFrame [lit "id"]
                                       [[PyScalar (SInt 1)]; [PyScalar (SInt 2)]]))]))
           Local (lit "test") _ _ eq_refl eq_refl eq_refl eq_refl
           json_dumps_accepts_json_only).
Defined.

(* ===================================================================== *)
(** * Properties of the start-up *)
(* ===================================================================== *)

Import Startup.

(** Runs [lifespan_with] one call at a time. *)
Ltac step_lifespan :=
  cbv [lifespan_with stry sbind call_load_config call_read_parquet assign
       sret fst snd];
  repeat match goal with
         | |- context [match load_config ?d ?p with _ => _ end] =>
             let E := fresh "Hconfig" in destruct (load_config d p) eqn:E
         | |- context [match read_parquet ?d ?p with _ => _ end] =>
             let E := fresh "Hread" in destruct (read_parquet d p) eqn:E
         end.

(** Takes a [Forall] over a list written out apart. *)
Ltac split_forall :=
  repeat match goal with
         | H : Forall _ (_ :: _) |- _ =>
             let H' := fresh in apply Forall_cons_iff in H as [H' H]
         | H : exists _, _ |- _ => destruct H
         end.

(** X1.  After [lifespan], [app.state.data_loaded] is assigned, and it is [True]
    exactly when the engine's library was imported, the configuration loads
    and each of the five required tables can be read. *)
Theorem lifespan_data_loaded_iff :
  forall (d : disk) (available claim_extraction_enabled : bool),
  exists b : bool,
    attr_data_loaded (fst (lifespan_with d available claim_extraction_enabled))
    = Some b
    /\ (b = true <->
        available = true
        /\ (exists loaded, load_config d PROJECT_DIRECTORY = Returned loaded)
        /\ Forall (fun path => exists table, read_parquet d path = Returned table)
                  required_tables).
Proof.
  intros d available claim_extraction_enabled. unfold required_tables.
  destruct available;
    [|exists false; split; [reflexivity | split; [discriminate | intros [? _]; discriminate]]].
  destruct claim_extraction_enabled; step_lifespan;
    (eexists; split; [reflexivity|]);
    (split;
     [ first [ discriminate
             | intros _; split; [reflexivity|];
               split; [eexists; reflexivity|];
               repeat (apply Forall_cons; [eexists; eassumption|]);
               apply Forall_nil ]
     | first [ reflexivity
             | intros (_ & Hc & Htables); split_forall; congruence ] ]).
Qed.

(** The flag [lifespan] leaves, computed from the disk. *)
Lemma lifespan_flag (d : disk) (available claim_extraction_enabled : bool) :
  attr_data_loaded (fst (lifespan_with d available claim_extraction_enabled))
  = Some (available && forallb (returns d) (full_load false)).
Proof.
  unfold full_load, required_tables, returns. cbn [map app forallb].
  destruct available; [|reflexivity].
  destruct claim_extraction_enabled; step_lifespan; reflexivity.
Qed.

(** X2.  When [lifespan] leaves [data_loaded] true, [app.state] holds the
    configuration and, under each attribute, the table read from the file of
    the same name; [covariates] holds the optional table, or [None] when
    claims are disabled or the file cannot be read; and the start-up made
    every call of a complete load, in order. *)
Theorem lifespan_loaded_state :
  forall (d : disk) (available claim_extraction_enabled : bool),
    attr_data_loaded (fst (lifespan_with d available claim_extraction_enabled))
    = Some true ->
    exists loaded t1 t2 t3 t4 t5,
      load_config d PROJECT_DIRECTORY = Returned loaded
      /\ read_parquet d (PROJECT_DIRECTORY ++ lit "/output/entities.parquet")
         = Returned t1
      /\ read_parquet d (PROJECT_DIRECTORY ++ lit "/output/communities.parquet")
         = Returned t2
      /\ read_parquet d (PROJECT_DIRECTORY ++ lit "/output/community_reports.parquet")
         = Returned t3
      /\ read_parquet d (PROJECT_DIRECTORY ++ lit "/output/text_units.parquet")
         = Returned t4
      /\ read_parquet d (PROJECT_DIRECTORY ++ lit "/output/relationships.parquet")
         = Returned t5
      /\ fst (lifespan_with d available claim_extraction_enabled)
         = mkAppState (Some loaded) (Some t1) (Some t2) (Some t3) (Some t4)
             (Some t5)
             (Some (if claim_extraction_enabled
                    then match read_parquet d covariates_file with
                         | Returned t => Some t
                         | Raised _ => None
                         end
                    else None))
             (Some true)
      /\ snd (lifespan_with d available claim_extraction_enabled)
         = full_load claim_extraction_enabled.
Proof.
  intros d available claim_extraction_enabled.
  unfold full_load, required_tables, covariates_file. cbn [map app].
  destruct available; [|discriminate].
  destruct claim_extraction_enabled; step_lifespan; try discriminate;
    intros _; eexists _, _, _, _, _, _; repeat split; reflexivity.
Qed.

(** Every file is there and claims are enabled. *)
Lemma lifespan_loaded_state_witness :
  fst (lifespan_with full_disk true true)
  = mkAppState (Some (mkConfig 0)) (Some sample_table) (Some sample_table)
      (Some sample_table) (Some sample_table) (Some sample_table)
      (Some (Some sample_table)) (Some true)
  /\ snd (lifespan_with full_disk true true) = full_load true.
Proof.
  destruct (lifespan_loaded_state full_disk true true eq_refl)
    as (loaded & t1 & t2 & t3 & t4 & t5 & Hc & H1 & H2 & H3 & H4 & H5 & Hstate & Hlog).
  split; [|exact Hlog].
  rewrite Hstate.
  injection Hc as <-. injection H1 as <-. injection H2 as <-.
  injection H3 as <-. injection H4 as <-. injection H5 as <-. reflexivity.
Defined.

(** X3.  The optional table never decides the load: two disks that agree on the
    configuration and on the five required files leave the same
    [data_loaded], whatever they hold for the covariates and whether claims
    are enabled or not. *)
Theorem lifespan_covariates_optional :
  forall (d d' : disk) (available enabled enabled' : bool),
    load_config d PROJECT_DIRECTORY = load_config d' PROJECT_DIRECTORY ->
    Forall (fun path => read_parquet d path = read_parquet d' path)
           required_tables ->
    attr_data_loaded (fst (lifespan_with d available enabled))
    = attr_data_loaded (fst (lifespan_with d' available enabled')).
Proof.
  intros d d' available enabled enabled' Hconfig Htables.
  rewrite !lifespan_flag. do 2 f_equal.
  unfold full_load, required_tables, returns in *. cbn [map app forallb].
  split_forall. rewrite Hconfig.
  repeat match goal with H : read_parquet d _ = _ |- _ => rewrite H; clear H end.
  reflexivity.
Qed.

(** The covariates file is missing on one disk and claims are enabled. *)
Lemma lifespan_covariates_optional_witness :
  attr_data_loaded (fst (lifespan_with (disk_without covariates_file) true true))
  = attr_data_loaded (fst (lifespan_with full_disk true false)).
Proof.
  apply (lifespan_covariates_optional (disk_without covariates_file) full_disk
           true true false eq_refl).
  repeat constructor.
Defined.

(** Rewrites with what the calls of the start-up gave. *)
Ltac use_calls :=
  repeat match goal with
         | H : load_config _ _ = _ |- _ => rewrite H; clear H
         | H : read_parquet _ _ = _ |- _ => rewrite H; clear H
         end.

(** X4.  The start-up makes its calls in one order and stops at the first that
    raises: the calls made are a prefix of the calls of a complete load;
    there is none when the engine's library is missing; and when
    [data_loaded] ends false with the library present, the last call made
    raised and every call before it returned.  With claims disabled, as the
    module sets them, the covariates file is never read. *)
Theorem lifespan_stops_at_first_failure :
  forall (d : disk) (available claim_extraction_enabled : bool),
    (available = false ->
     snd (lifespan_with d available claim_extraction_enabled) = [])
    /\ snd (lifespan_with d available claim_extraction_enabled)
       = firstn (length (snd (lifespan_with d available claim_extraction_enabled)))
                (full_load claim_extraction_enabled)
    /\ (available = true ->
        attr_data_loaded (fst (lifespan_with d available claim_extraction_enabled))
        = Some false ->
        returns d (last (snd (lifespan_with d available claim_extraction_enabled))
                        (LoadConfig []))
        = false
        /\ forallb (returns d)
                   (removelast (snd (lifespan_with d available claim_extraction_enabled)))
           = true)
    /\ (In (ReadParquet covariates_file) (snd (lifespan d available)) -> False).
Proof.
  intros d available claim_extraction_enabled.
  unfold lifespan, CLAIM_EXTRACTION_ENABLED, full_load, required_tables,
    covariates_file.
  cbn [map app].
  split; [intros ->; reflexivity|].
  split; [destruct available, claim_extraction_enabled; step_lifespan; reflexivity|].
  split.
  - intros -> . destruct claim_extraction_enabled; step_lifespan;
      try discriminate; intros _;
      cbn [last removelast forallb returns app]; use_calls; split; reflexivity.
  - destruct available; step_lifespan; cbv; intuition discriminate.
Qed.

(* ===================================================================== *)
(** * More on the handlers *)
(* ===================================================================== *)

(** The calls a handler makes. *)
Lemma search_trace (w : world) (v : variant) (query : str) :
  trace (snd (search w v query initial))
  = if GRAPHRAG_API_AVAILABLE w && data_loaded w then
      match api w v query with
      | Returned (response, context) =>
          if json_renders w (response_dict response context)
          then [ApiCall v query]
          else [ApiCall v query;
                SubprocessRun (cli_command query (cli_method v) handler_kwargs)
                              300 (lit ".")]
      | Raised _ =>
          [ApiCall v query;
           SubprocessRun (cli_command query (cli_method v) handler_kwargs)
                         300 (lit ".")]
      end
    else [SubprocessRun (cli_command query (cli_method v) handler_kwargs)
                        300 (lit ".")].
Proof.
  destruct (GRAPHRAG_API_AVAILABLE w && data_loaded w) eqn:Hflags.
  - destruct (api w v query) as [[response context] | message] eqn:Hapi.
    + destruct (json_renders w (response_dict response context)) eqn:Hrender.
      * now rewrite (search_api_phase w v query response context Hflags Hapi Hrender).
      * rewrite search_cli_phase, cli_phase_trace.
        -- unfold before_cli. now rewrite Hflags.
        -- right. right. split; [assumption | now exists response, context].
    + rewrite search_cli_phase, cli_phase_trace.
      * unfold before_cli. now rewrite Hflags.
      * right. left. split; [assumption | now exists message].
  - rewrite search_cli_phase, cli_phase_trace by now left.
    unfold before_cli. now rewrite Hflags.
Qed.

(** What a handler answers, by the phase that answers. *)
Lemma search_answer (w : world) (v : variant) (query : str) :
  (exists response context,
      GRAPHRAG_API_AVAILABLE w && data_loaded w = true
      /\ api w v query = Returned (response, context)
      /\ json_renders w (response_dict response context) = true
      /\ search w v query initial
         = (Returns (JSONResponse (response_dict response context)),
            mkState [ApiCall v query] 0))
  \/ (cli_phase_taken w v query
      /\ search w v query initial = cli_phase w v query (before_cli w v query)).
Proof.
  destruct (GRAPHRAG_API_AVAILABLE w && data_loaded w) eqn:Hflags.
  - destruct (api w v query) as [[response context] | message] eqn:Hapi.
    + destruct (json_renders w (response_dict response context)) eqn:Hrender.
      * left. exists response, context. repeat split; try assumption.
        now apply search_api_phase.
      * right.
        assert (Htaken : cli_phase_taken w v query)
          by (right; right; split; [assumption | now exists response, context]).
        split; [assumption | now apply search_cli_phase].
    + right.
      assert (Htaken : cli_phase_taken w v query)
        by (right; left; split; [assumption | now exists message]).
      split; [assumption | now apply search_cli_phase].
  - right. assert (Htaken : cli_phase_taken w v query) by now left.
    split; [assumption | now apply search_cli_phase].
Qed.

(** X5.  A missing configuration or a missing required table switches the engine
    off for every endpoint: after such a start-up no handler calls the
    engine, each one runs the tool and nothing else. *)
Theorem failed_load_disables_engine :
  forall (d : disk) (available claim_extraction_enabled : bool)
         (engine : variant -> str -> attempt (pyobj * pyobj))
         (tool : list str -> attempt CompletedProcess)
         (clock : nat -> PrimFloat.float) (renders : pyobj -> bool)
         (v : variant) (query : str),
    (exists message, load_config d PROJECT_DIRECTORY = Raised message)
    \/ (exists path message,
           In path required_tables /\ read_parquet d path = Raised message) ->
    trace (snd (search
                  (world_after available
                     (fst (lifespan_with d available claim_extraction_enabled))
                     engine tool clock renders)
                  v query initial))
    = [SubprocessRun (cli_command query (cli_method v) handler_kwargs)
                     300 (lit ".")].
Proof.
  intros d available claim_extraction_enabled engine tool clock renders v query
         Hmissing.
  rewrite search_trace.
  cbn [world_after GRAPHRAG_API_AVAILABLE data_loaded].
  unfold getattr_data_loaded. rewrite lifespan_flag.
  assert (Hfalse : forallb (returns d) (full_load false) = false).
  { destruct (forallb (returns d) (full_load false)) eqn:Hall; [|reflexivity].
    rewrite forallb_forall in Hall.
    destruct Hmissing as [[message Hconfig] | (path & message & Hin & Hread)].
    - specialize (Hall (LoadConfig PROJECT_DIRECTORY) (or_introl eq_refl)).
      simpl in Hall. now rewrite Hconfig in Hall.
    - assert (Hev : In (ReadParquet path) (full_load false)).
      { unfold full_load. right. rewrite app_nil_r. now apply in_map. }
      specialize (Hall _ Hev). simpl in Hall. now rewrite Hread in Hall. }
  rewrite Hfalse, !andb_false_r. reflexivity.
Qed.

(** The relationships table is missing; the engine would answer. *)
Lemma failed_load_disables_engine_witness :
  trace (snd (search
                (world_after true
                   (fst (lifespan_with
                           (disk_without
                              (PROJECT_DIRECTORY ++ lit "/output/relationships.parquet"))
                           true false))
                   (fun _ _ => Returned (PyStr (lit "answer"), PyNone))
                   (fun _ => Returned (mkCompletedProcess 0 (lit "Hi") []))
                   (fun _ => PrimFloat.zero) json_dumps_accepts)
                Local (lit "test") initial))
  = [SubprocessRun (cli_command (lit "test") (lit "local") handler_kwargs)
                   300 (lit ".")].
Proof.
  apply (failed_load_disables_engine
           (disk_without (PROJECT_DIRECTORY ++ lit "/output/relationships.parquet"))
           true false).
  right. exists (PROJECT_DIRECTORY ++ lit "/output/relationships.parquet"),
                (lit "No such file or directory").
  split; [|reflexivity].
  right. right. right. right. left. reflexivity.
Defined.

(** X6.  [status] calls no collaborator, and after a start-up its [data_loaded]
    tells what the handlers do: it is true exactly when every search handler
    begins with a call of the engine; a true [data_loaded] comes with a true
    [graphrag_api_available], while [graphrag_api_available] alone can be true
    with the engine never called. *)
Theorem status_reports_the_guard :
  forall (d : disk) (available claim_extraction_enabled : bool)
         (engine : variant -> str -> attempt (pyobj * pyobj))
         (tool : list str -> attempt CompletedProcess)
         (clock : nat -> PrimFloat.float) (renders : pyobj -> bool)
         (st : state),
    let a := fst (lifespan_with d available claim_extraction_enabled) in
    let w := world_after available a engine tool clock renders in
    exists (content : dict) (loaded : bool),
      status w a st
      = ((if renders (PyDict content)
          then Returns (JSONResponse (PyDict content))
          else Raises JSONEncodeError), st)
      /\ dict_get content (lit "data_loaded") = Some (PyBool loaded)
      /\ dict_get content (lit "graphrag_api_available") = Some (PyBool available)
      /\ (loaded = true -> available = true)
      /\ (loaded = true <->
          forall v query,
            In (ApiCall v query) (trace (snd (search w v query initial)))).
Proof.
  intros d available claim_extraction_enabled engine tool clock renders st a w.
  exists [(lit "status", PyStr (lit "Server is up and running"));
          (lit "graphrag_api_available", PyBool available);
          (lit "data_loaded", PyBool (getattr_data_loaded a));
          (lit "fallback_mode",
           PyStr (if negb available
                  then lit "CLI available"
                  else lit "API + CLI fallback"));
          (lit "project_directory", PyStr PROJECT_DIRECTORY);
          (lit "community_level", PyScalar (SInt COMMUNITY_LEVEL));
          (lit "response_type", PyStr RESPONSE_TYPE)],
         (getattr_data_loaded a).
  split; [|split; [|split; [|split]]].
  - unfold status, json_response. cbn [w world_after json_renders].
    destruct (renders _); reflexivity.
  - reflexivity.
  - reflexivity.
  - unfold a, getattr_data_loaded. rewrite lifespan_flag.
    intros H. now apply andb_prop in H.
  - assert (Hguard : GRAPHRAG_API_AVAILABLE w && data_loaded w
                     = getattr_data_loaded a).
    { cbn [w world_after GRAPHRAG_API_AVAILABLE data_loaded].
      unfold a, getattr_data_loaded. rewrite lifespan_flag.
      now destruct available. }
    split.
    + intros Hloaded v query. rewrite search_trace, Hguard, Hloaded.
      destruct (api w v query) as [[response context] | message];
        [destruct (json_renders w _)|]; now left.
    + intros Hcalls. specialize (Hcalls Global []).
      rewrite search_trace, Hguard in Hcalls.
      destruct (getattr_data_loaded a); [reflexivity|].
      destruct Hcalls as [Hcall | []]. discriminate.
Qed.

(* ===================================================================== *)
(** * More on the CLI bridge *)
(* ===================================================================== *)

Lemma lstrip_idempotent (s : str) : lstrip (lstrip s) = lstrip s.
Proof.
  induction s as [|c s IH]; [reflexivity|].
  simpl. destruct (isspace c) eqn:Hc; [exact IH|]. simpl. now rewrite Hc.
Qed.

Lemma strip_idempotent (s : str) : strip (strip s) = strip s.
Proof.
  unfold strip.
  now rewrite lstrip_rstrip, lstrip_idempotent, rstrip_idempotent.
Qed.

(** What is left after the first line is the end of the text. *)
Lemma after_first_line (s : str) :
  exists before, s = before ++ join [LF] (tl (split [LF] s)).
Proof.
  destruct (cut [LF] s) as [[line more]|] eqn:E.
  - rewrite (split_some _ _ _ _ _ E). simpl tl. rewrite join_split.
    exists (line ++ [LF]). rewrite <- app_assoc. now apply cut_app.
  - rewrite (split_none _ _ _ E). exists s. simpl. now rewrite app_nil_r.
Qed.

(** The block that cleans the response, on a stripped text. *)
Lemma extract_cases (t : str) :
  (contains SUCCESS t = false /\ extract_clean_response t = t)
  \/ (exists pre post,
         t = pre ++ SUCCESS ++ post /\ contains SUCCESS post = false
         /\ (extract_clean_response t = strip post
             \/ extract_clean_response t
                = strip (join [LF] (tl (split [LF] (strip post)))))).
Proof.
  destruct (contains SUCCESS t) eqn:Hmarker.
  - right.
    destruct (last_occurrence SUCCESS t SUCCESS_nonempty Hmarker)
      as (pre & post & -> & Hpost).
    exists pre, post. split; [reflexivity|]. split; [assumption|].
    unfold extract_clean_response.
    rewrite Hmarker, split_present_length by (apply SUCCESS_nonempty || assumption).
    rewrite (split_last _ _ _ SUCCESS_unbordered SUCCESS_nonempty Hpost).
    destruct (startswith LOCAL_HEADER (strip post)
              || startswith GLOBAL_HEADER (strip post)); [now right | now left].
  - left. split; [reflexivity | now apply extract_absent].
Qed.

(** X7.  A response taken from the standard output of a run that exits with
    code 0 has no white space at its ends. *)
Theorem cli_response_is_stripped :
  forall (w : world) (query method : str) (kwargs : Kwargs) (st : state)
         (out err : str),
    subprocess_run w (cli_command query method kwargs)
      = Returned (mkCompletedProcess 0 out err) ->
    exists (text : str) (context_data : pyobj) (st' : state),
      execute_cli_search w query method kwargs st
        = (Returns [(lit "response", PyStr text);
                    (lit "context_data", context_data);
                    (lit "success", PyBool true);
                    (lit "method_used", PyStr (lit "cli"))], st')
      /\ strip text = text
      /\ lstrip text = text /\ rstrip text = text.
Proof.
  intros w query method kwargs st out err Hrun.
  eexists _, _, _. split.
  { apply (cli_exit_zero w query method kwargs st _ Hrun). reflexivity. }
  cbn [stdout].
  assert (Hstripped : strip (extract_clean_response (strip out))
                      = extract_clean_response (strip out)).
  { destruct (extract_cases (strip out))
      as [[_ ->] | (pre & post & _ & _ & [-> | ->])];
      apply strip_idempotent. }
  split; [exact Hstripped|].
  rewrite <- Hstripped. unfold strip. split.
  - now rewrite <- lstrip_rstrip, lstrip_idempotent.
  - apply rstrip_idempotent.
Qed.

(** The tool pads its answer with blank lines. *)
Lemma cli_response_is_stripped_witness :
  exists (text : str) (context_data : pyobj) (st' : state),
    execute_cli_search
      (cli_world (Returned (mkCompletedProcess 0
         ([LF] ++ lit "  SUCCESS: Hello  " ++ [LF; LF]) [])))
      (lit "test") (lit "global") handler_kwargs initial
    = (Returns [(lit "response", PyStr text);
                (lit "context_data", context_data);
                (lit "success", PyBool true);
                (lit "method_used", PyStr (lit "cli"))], st')
    /\ strip text = text
    /\ lstrip text = text /\ rstrip text = text.
Proof.
  exact (cli_response_is_stripped
           (cli_world (Returned (mkCompletedProcess 0
              ([LF] ++ lit "  SUCCESS: Hello  " ++ [LF; LF]) [])))
           (lit "test") (lit "global") handler_kwargs initial
           ([LF] ++ lit "  SUCCESS: Hello  " ++ [LF; LF]) [] eq_refl).
Defined.

(** X8.  A response taken from the standard output of a run that exits with
    code 0 never holds the marker ["SUCCESS:"]. *)
Theorem cli_response_has_no_marker :
  forall (w : world) (query method : str) (kwargs : Kwargs) (st : state)
         (out err : str),
    subprocess_run w (cli_command query method kwargs)
      = Returned (mkCompletedProcess 0 out err) ->
    exists (text : str) (context_data : pyobj) (st' : state),
      execute_cli_search w query method kwargs st
        = (Returns [(lit "response", PyStr text);
                    (lit "context_data", context_data);
                    (lit "success", PyBool true);
                    (lit "method_used", PyStr (lit "cli"))], st')
      /\ contains SUCCESS text = false.
Proof.
  intros w query method kwargs st out err Hrun.
  eexists _, _, _. split.
  { apply (cli_exit_zero w query method kwargs st _ Hrun). reflexivity. }
  cbn [stdout].
  destruct (extract_cases (strip out))
    as [[Habsent ->] | (pre & post & _ & Hpost & [-> | ->])].
  - exact Habsent.
  - now apply contains_strip.
  - apply contains_strip.
    destruct (contains SUCCESS (join [LF] (tl (split [LF] (strip post)))))
      eqn:Hrest; [|reflexivity].
    destruct (after_first_line (strip post)) as [before Hsplit].
    pose proof (contains_strip _ _ Hpost) as Hstrip.
    rewrite Hsplit in Hstrip.
    now rewrite (contains_app_r _ before _ Hrest) in Hstrip.
Qed.

(** The tool prints the marker three times. *)
Lemma cli_response_has_no_marker_witness :
  exists (text : str) (context_data : pyobj) (st' : state),
    execute_cli_search
      (cli_world (Returned (mkCompletedProcess 0
         (lit "SUCCESS: one SUCCESS: two SUCCESS: three") [])))
      (lit "test") (lit "global") handler_kwargs initial
    = (Returns [(lit "response", PyStr text);
                (lit "context_data", context_data);
                (lit "success", PyBool true);
                (lit "method_used", PyStr (lit "cli"))], st')
    /\ contains SUCCESS text = false.
Proof.
  exact (cli_response_has_no_marker
           (cli_world (Returned (mkCompletedProcess 0
              (lit "SUCCESS: one SUCCESS: two SUCCESS: three") [])))
           (lit "test") (lit "global") handler_kwargs initial
           (lit "SUCCESS: one SUCCESS: two SUCCESS: three") [] eq_refl).
Defined.

(** X9.  [execute_cli_search] never raises: whatever the tool does, it runs it
    once, with a limit of 300 seconds in the current directory, and returns a
    dict with the four keys in one order, whose [success] is true exactly
    when the tool exited with code 0. *)
Theorem cli_bridge_always_returns :
  forall (w : world) (query method : str) (kwargs : Kwargs) (st : state),
  exists (result : dict) (st' : state),
    execute_cli_search w query method kwargs st = (Returns result, st')
    /\ keys result = [lit "response"; lit "context_data"; lit "success";
                      lit "method_used"]
    /\ trace st'
       = trace st ++ [SubprocessRun (cli_command query method kwargs)
                                    300 (lit ".")]
    /\ (dict_get result (lit "success") = Some (PyBool true) <->
        exists out err,
          subprocess_run w (cli_command query method kwargs)
          = Returned (mkCompletedProcess 0 out err)).
Proof.
  intros w query method kwargs st.
  destruct (subprocess_run w (cli_command query method kwargs))
    as [[code out err] | message] eqn:Hrun.
  - destruct (Z.eq_dec code 0) as [-> | Hcode].
    + eexists _, _. split; [apply (cli_exit_zero w _ _ _ st _ Hrun eq_refl)|].
      repeat split. now exists out, err.
    + eexists _, _. split; [apply (cli_exit_nonzero w _ _ _ st _ Hrun Hcode)|].
      repeat split; [discriminate|].
      intros (out' & err' & [= -> _ _]). now destruct Hcode.
  - eexists _, _. split; [apply (cli_raised w _ _ _ st _ Hrun)|].
    repeat split; [discriminate|]. intros (out' & err' & [=]).
Qed.

(* ===================================================================== *)
(** * Answers and errors of the handlers *)
(* ===================================================================== *)

(** X10.  A handler calls the engine at most once and runs the tool at most once,
    the engine first, with the query it was given: it never tries again. *)
Theorem handler_calls_at_most_once :
  forall (w : world) (v : variant) (query : str),
    trace (snd (search w v query initial)) = [ApiCall v query]
    \/ trace (snd (search w v query initial))
       = [ApiCall v query;
          SubprocessRun (cli_command query (cli_method v) handler_kwargs)
                        300 (lit ".")]
    \/ trace (snd (search w v query initial))
       = [SubprocessRun (cli_command query (cli_method v) handler_kwargs)
                        300 (lit ".")].
Proof.
  intros w v query. rewrite search_trace.
  destruct (GRAPHRAG_API_AVAILABLE w && data_loaded w); [|now right; right].
  destruct (api w v query) as [[response context] | message];
    [destruct (json_renders w _)|]; [now left | now right; left | now right; left].
Qed.

(** What the CLI phase answers when it returns. *)
Lemma cli_phase_returns (w : world) (v : variant) (query : str) (st : state)
    (content : pyobj) :
  fst (cli_phase w v query st) = Returns (JSONResponse content) ->
  exists text context_data,
    content = PyDict [(lit "response", PyStr text);
                      (lit "context_data", context_data);
                      (lit "success", PyBool true);
                      (lit "method_used", PyStr (fallback_tag v))].
Proof.
  intros Hcontent.
  destruct (cli_result_shape w query (cli_method v) handler_kwargs st)
    as (text & context_data & success & st' & Hrun & _).
  rewrite (cli_phase_outcome w v query _ _ _ _ _ Hrun) in Hcontent.
  destruct success; [|discriminate].
  unfold json_response in Hcontent.
  destruct (json_renders w _); [|discriminate].
  injection Hcontent as <-. exists text, context_data. now destruct v.
Qed.

(** What the CLI phase raises when it raises. *)
Lemma cli_phase_raises (w : world) (v : variant) (query : str) (st : state)
    (e : exn) :
  fst (cli_phase w v query st) = Raises e ->
  (e = JSONEncodeError
   /\ exists out err,
        subprocess_run w (cli_command query (cli_method v) handler_kwargs)
        = Returned (mkCompletedProcess 0 out err))
  \/ (exists p,
         subprocess_run w (cli_command query (cli_method v) handler_kwargs)
         = Returned p
         /\ returncode p <> 0%Z
         /\ e = HTTPException 500 (PyStr (lit "CLI Error: " ++ stderr p)))
  \/ (exists message,
         subprocess_run w (cli_command query (cli_method v) handler_kwargs)
         = Raised message
         /\ e = HTTPException 500 (PyStr (lit "CLI Exception: " ++ message))).
Proof.
  intros Hraises. unfold cli_phase, bind in Hraises.
  destruct (subprocess_run w (cli_command query (cli_method v) handler_kwargs))
    as [[code out err] | message] eqn:Hrun.
  - destruct (Z.eq_dec code 0) as [-> | Hcode].
    + rewrite (cli_exit_zero w _ _ _ st _ Hrun eq_refl) in Hraises.
      simpl in Hraises. unfold json_response in Hraises.
      destruct (json_renders w _); [discriminate|].
      injection Hraises as <-. left. split; [reflexivity | now exists out, err].
    + rewrite (cli_exit_nonzero w _ _ _ st _ Hrun Hcode) in Hraises.
      injection Hraises as <-. right. left. eexists. repeat split. exact Hcode.
    - rewrite (cli_raised w _ _ _ st _ Hrun) in Hraises.
      injection Hraises as <-. right. right. now exists message.
Qed.

(** X11.  The [method_used] of an answer tells which phase gave it: ["api"] for an
    answer built from the engine's result, with no run of the tool; ["cli"]
    (global, local), ["cli_local_fallback"] (drift) or ["cli_basic_fallback"]
    (basic) for an answer taken from the tool's output. *)
Theorem method_used_names_the_phase :
  forall (w : world) (v : variant) (query : str) (content : pyobj),
    fst (search w v query initial) = Returns (JSONResponse content) ->
    exists (items : dict) (tag : str),
      content = PyDict items
      /\ dict_get items (lit "method_used") = Some (PyStr tag)
      /\ dict_get items (lit "success") = Some (PyBool true)
      /\ ((tag = lit "api"
           /\ trace (snd (search w v query initial)) = [ApiCall v query])
          \/ (tag = fallback_tag v
              /\ In (SubprocessRun (cli_command query (cli_method v) handler_kwargs)
                                   300 (lit "."))
                    (trace (snd (search w v query initial))))).
Proof.
  intros w v query content Hcontent.
  destruct (search_answer w v query)
    as [(response & context & _ & _ & _ & Hsearch) | [Htaken Hsearch]].
  - rewrite Hsearch in Hcontent |- *. injection Hcontent as <-.
    eexists _, _. split; [reflexivity|]. repeat split. now left.
  - rewrite Hsearch in Hcontent.
    destruct (cli_phase_returns w v query _ content Hcontent)
      as (text & context_data & ->).
    eexists _, _. split; [reflexivity|]. repeat split.
    right. split; [reflexivity|].
    rewrite Hsearch, cli_phase_trace. apply in_or_app. right. now left.
Qed.

(** The engine answers the basic search. *)
Lemma method_used_names_the_phase_witness :
  exists (items : dict) (tag : str),
    response_dict (PyStr (lit "answer")) PyNone = PyDict items
    /\ dict_get items (lit "method_used") = Some (PyStr tag)
    /\ dict_get items (lit "success") = Some (PyBool true)
    /\ ((tag = lit "api"
         /\ trace (snd (search (engine_world (PyStr (lit "answer")) PyNone)
                               Basic (lit "test") initial))
            = [ApiCall Basic (lit "test")])
        \/ (tag = fallback_tag Basic
            /\ In (SubprocessRun
                     (cli_command (lit "test") (cli_method Basic) handler_kwargs)
                     300 (lit "."))
                  (trace (snd (search (engine_world (PyStr (lit "answer")) PyNone)
                                      Basic (lit "test") initial))))).
Proof.
  exact (method_used_names_the_phase
           (engine_world (PyStr (lit "answer")) PyNone) Basic (lit "test")
           (response_dict (PyStr (lit "answer")) PyNone) eq_refl).
Defined.

(** X12.  A search handler raises nothing but the HTTP error 500 with the
    bridge's text, ["CLI Error: "] and the standard error after an exit code
    other than 0, ["CLI Exception: "] and the exception's message after a run
    that raised, or the serialization error of a successful result; in each
    case the tool was run.  No [KeyError] or [ValueError] leaves a handler. *)
Theorem handler_errors :
  forall (w : world) (v : variant) (query : str) (e : exn),
    fst (search w v query initial) = Raises e ->
    In (SubprocessRun (cli_command query (cli_method v) handler_kwargs)
                      300 (lit "."))
       (trace (snd (search w v query initial)))
    /\ ((e = JSONEncodeError
         /\ exists out err,
              subprocess_run w (cli_command query (cli_method v) handler_kwargs)
              = Returned (mkCompletedProcess 0 out err))
        \/ (exists p,
               subprocess_run w (cli_command query (cli_method v) handler_kwargs)
               = Returned p
               /\ returncode p <> 0%Z
               /\ e = HTTPException 500 (PyStr (lit "CLI Error: " ++ stderr p)))
        \/ (exists message,
               subprocess_run w (cli_command query (cli_method v) handler_kwargs)
               = Raised message
               /\ e = HTTPException 500
                        (PyStr (lit "CLI Exception: " ++ message)))).
Proof.
  intros w v query e Hraises.
  destruct (search_answer w v query)
    as [(response & context & _ & _ & _ & Hsearch) | [Htaken Hsearch]].
  - rewrite Hsearch in Hraises. discriminate.
  - rewrite Hsearch in Hraises |- *. split.
    + rewrite cli_phase_trace. apply in_or_app. right. now left.
    + now apply (cli_phase_raises w v query (before_cli w v query)).
Qed.

(** The tool cannot be started. *)
Lemma handler_errors_witness :
  In (SubprocessRun (cli_command (lit "test") (cli_method Local) handler_kwargs)
                    300 (lit "."))
     (trace (snd (search (cli_world (Raised (lit "No such file: graphrag")))
                         Local (lit "test") initial)))
  /\ ((HTTPException 500 (PyStr (lit "CLI Exception: No such file: graphrag"))
       = JSONEncodeError
       /\ exists out err,
            subprocess_run (cli_world (Raised (lit "No such file: graphrag")))
              (cli_command (lit "test") (cli_method Local) handler_kwargs)
            = Returned (mkCompletedProcess 0 out err))
      \/ (exists p,
             subprocess_run (cli_world (Raised (lit "No such file: graphrag")))
               (cli_command (lit "test") (cli_method Local) handler_kwargs)
             = Returned p
             /\ returncode p <> 0%Z
             /\ HTTPException 500 (PyStr (lit "CLI Exception: No such file: graphrag"))
                = HTTPException 500 (PyStr (lit "CLI Error: " ++ stderr p)))
      \/ (exists message,
             subprocess_run (cli_world (Raised (lit "No such file: graphrag")))
               (cli_command (lit "test") (cli_method Local) handler_kwargs)
             = Raised message
             /\ HTTPException 500 (PyStr (lit "CLI Exception: No such file: graphrag"))
                = HTTPException 500 (PyStr (lit "CLI Exception: " ++ message)))).
Proof.
  exact (handler_errors (cli_world (Raised (lit "No such file: graphrag")))
           Local (lit "test")
           (HTTPException 500 (PyStr (lit "CLI Exception: No such file: graphrag")))
           eq_refl).
Defined.

(** X13.  A run of the tool that raises (time out, the program cannot be started)
    reaches the client of every handler in its CLI phase as the HTTP error
    500 whose detail is ["CLI Exception: "] followed by the exception's
    message; the clock is read once, before the run. *)
Theorem cli_exception_surfaces_as_500 :
  forall (w : world) (v : variant) (query message : str),
    cli_phase_taken w v query ->
    subprocess_run w (cli_command query (cli_method v) handler_kwargs)
    = Raised message ->
    search w v query initial
    = (Raises (HTTPException 500 (PyStr (lit "CLI Exception: " ++ message))),
       mkState (trace (before_cli w v query)
                ++ [SubprocessRun (cli_command query (cli_method v) handler_kwargs)
                                  300 (lit ".")])
               1).
Proof.
  intros w v query message Htaken Hrun.
  rewrite (search_cli_phase w v query Htaken). unfold cli_phase, bind.
  rewrite (cli_raised w _ _ _ _ message Hrun).
  unfold before_cli. destruct (GRAPHRAG_API_AVAILABLE w && data_loaded w);
    reflexivity.
Qed.

(** The tool exceeds its time limit. *)
Lemma cli_exception_surfaces_as_500_witness :
  search (cli_world (Raised (lit "timed out after 300 seconds")))
         Global (lit "test") initial
  = (Raises (HTTPException 500
       (PyStr (lit "CLI Exception: timed out after 300 seconds"))),
     mkState [SubprocessRun (cli_command (lit "test") (lit "global") handler_kwargs)
                            300 (lit ".")] 1).
Proof.
  exact (cli_exception_surfaces_as_500
           (cli_world (Raised (lit "timed out after 300 seconds")))
           Global (lit "test") (lit "timed out after 300 seconds")
           (or_introl eq_refl) eq_refl).
Defined.

Lemma search_raises_500 (w : world) (v : variant) (query : str)
    (status_code : Z) (detail : pyobj) :
  fst (search w v query initial) = Raises (HTTPException status_code detail) ->
  status_code = 500%Z
  /\ In (SubprocessRun (cli_command query (cli_method v) handler_kwargs)
                       300 (lit "."))
        (trace (snd (search w v query initial))).
Proof.
  intros Hraises.
  destruct (search_answer w v query)
    as [(response & context & _ & _ & _ & Hsearch) | [Htaken Hsearch]].
  - rewrite Hsearch in Hraises. discriminate.
  - rewrite Hsearch in Hraises |- *. split.
    + destruct (cli_phase_raises w v query _ _ Hraises)
        as [[Hjson _] | [(p & _ & _ & He) | (message & _ & He)]];
        [discriminate | |]; now injection He.
    + rewrite cli_phase_trace. apply in_or_app. right. now left.
Qed.

(** X14.  The status of an HTTP error of [/query] tells whose fault it is: 400
    exactly when [method] is none of the four names, and then nothing was
    called; 500 otherwise, and then the tool was run. *)
Theorem query_get_error_status :
  forall (w : world) (q method : str) (status_code : Z) (detail : pyobj),
    fst (query_get w q (Some method) initial)
    = Raises (HTTPException status_code detail) ->
    (status_code = 400%Z
     /\ (In method valid_methods -> False)
     /\ snd (query_get w q (Some method) initial) = initial)
    \/ (status_code = 500%Z
        /\ In method valid_methods
        /\ exists cmd,
             In (SubprocessRun cmd 300 (lit "."))
                (trace (snd (query_get w q (Some method) initial)))).
Proof.
  intros w q method status_code detail. unfold query_get, valid_methods.
  destruct (str_eqb method (lit "global")) eqn:Hglobal;
    [|destruct (str_eqb method (lit "local")) eqn:Hlocal;
      [|destruct (str_eqb method (lit "drift")) eqn:Hdrift;
        [|destruct (str_eqb method (lit "basic")) eqn:Hbasic]]].
  - apply str_eqb_eq in Hglobal. intros Hraises. right.
    destruct (search_raises_500 w Global q _ _ Hraises) as [-> Hrun].
    split; [reflexivity|]. split; [now left | eexists; exact Hrun].
  - apply str_eqb_eq in Hlocal. intros Hraises. right.
    destruct (search_raises_500 w Local q _ _ Hraises) as [-> Hrun].
    split; [reflexivity|]. split; [now right; left | eexists; exact Hrun].
  - apply str_eqb_eq in Hdrift. intros Hraises. right.
    destruct (search_raises_500 w Drift q _ _ Hraises) as [-> Hrun].
    split; [reflexivity|]. split; [now right; right; left | eexists; exact Hrun].
  - apply str_eqb_eq in Hbasic. intros Hraises. right.
    destruct (search_raises_500 w Basic q _ _ Hraises) as [-> Hrun].
    split; [reflexivity|].
    split; [now right; right; right; left | eexists; exact Hrun].
  - intros [= <- _]. left. split; [reflexivity|]. split; [|reflexivity].
    intros [<- | [<- | [<- | [<- | []]]]]; discriminate.
Qed.

(** The method is written with a capital letter. *)
Lemma query_get_error_status_witness :
  (400%Z = 400%Z
   /\ (In (lit "Global") valid_methods -> False)
   /\ snd (query_get failing_engine_world (lit "test") (Some (lit "Global")) initial)
      = initial)
  \/ (400%Z = 500%Z
      /\ In (lit "Global") valid_methods
      /\ exists cmd,
           In (SubprocessRun cmd 300 (lit "."))
              (trace (snd (query_get failing_engine_world (lit "test")
                                     (Some (lit "Global")) initial)))).
Proof.
  exact (query_get_error_status failing_engine_world (lit "test") (lit "Global")
           400 (PyStr (lit "Invalid method. Use: global, local, drift, or basic"))
           eq_refl).
Defined.

(* ===================================================================== *)
(** * More on the context normalizer *)
(* ===================================================================== *)

(** Values without tables are left as they are. *)
Lemma recursively_convert_without_tables (v : pyobj) :
  no_tabular v = true -> recursively_convert v = v.
Proof.
  induction v as [a | items IH | items IH | df] using pyobj_nested_ind; simpl.
  - reflexivity.
  - intros H. f_equal. apply forallb_Forall in H.
    rewrite <- (map_id items) at 2. apply map_ext_in.
    rewrite Forall_forall in *. auto.
  - intros H. f_equal. apply forallb_Forall in H.
    rewrite <- (map_id items) at 2. apply map_ext_in.
    rewrite Forall_forall in *. intros [k x] Hin. simpl. f_equal.
    apply (IH (k, x) Hin). apply (H (k, x) Hin).
  - discriminate.
Qed.

(** X15.  The normalizer only touches tables: a list or a dict in which no table
    can be reached comes back unchanged, whatever else it holds (numbers,
    [None], objects of other classes), and so does every such value inside a
    list or a dict. *)
Theorem normalizer_only_touches_tables :
  forall (v : pyobj),
    no_tabular v = true ->
    recursively_convert v = v
    /\ (forall items, v = PyList items -> process_context_data v = v)
    /\ (forall items, v = PyDict items -> process_context_data v = v).
Proof.
  intros v Hv. split; [now apply recursively_convert_without_tables|].
  split; intros items ->;
    now apply (recursively_convert_without_tables _ Hv).
Qed.

(** A dict with a number, [None] and an object of another class. *)
Lemma normalizer_only_touches_tables_witness :
  process_context_data
    (PyDict [(lit "count", PyScalar (SInt 3));
             (lit "note", PyNone);
             (lit "when", PyList [PyScalar (SOpaque 7)])])
  = PyDict [(lit "count", PyScalar (SInt 3));
            (lit "note", PyNone);
            (lit "when", PyList [PyScalar (SOpaque 7)])].
Proof.
  exact (proj2 (proj2 (normalizer_only_touches_tables
                         (PyDict [(lit "count", PyScalar (SInt 3));
                                  (lit "note", PyNone);
                                  (lit "when", PyList [PyScalar (SOpaque 7)])])
                         eq_refl))
               _ eq_refl).
Defined.

(** X16.  Normalizing is idempotent on every value whose tables hold no table
    in a cell, wherever those tables sit in lists and dicts: a first pass
    leaves no table behind, and a second pass changes nothing.  A table in a
    cell of a table is another matter: the first pass hands the cell over as
    it is, and only a second pass converts it. *)
Theorem normalizer_idempotent_on_flat_tables :
  (forall (v : pyobj),
      flat_tables v = true ->
      recursively_convert (recursively_convert v) = recursively_convert v
      /\ process_context_data (process_context_data v) = process_context_data v)
  /\ recursively_convert
       (PyDataFrame
          (mkDataFrame [lit "t"]
             [[PyDataFrame (mkDataFrame [lit "id"] [[PyScalar (SInt 1)]])]]))
     = PyList [PyDict [(lit "t",
                        PyDataFrame (mkDataFrame [lit "id"] [[PyScalar (SInt 1)]]))]]
  /\ recursively_convert
       (recursively_convert
          (PyDataFrame
             (mkDataFrame [lit "t"]
                [[PyDataFrame (mkDataFrame [lit "id"] [[PyScalar (SInt 1)]])]])))
     = PyList [PyDict [(lit "t", PyList [PyDict [(lit "id", PyScalar (SInt 1))]])]].
Proof.
  split; [| split; reflexivity].
  intros v Hflat. split.
  - now apply recursively_convert_without_tables, recursively_convert_flat.
  - destruct v as [[| | | | |] | items | items | df]; try reflexivity.
    + now apply (recursively_convert_without_tables
                   (recursively_convert (PyList items))),
                recursively_convert_flat.
    + now apply (recursively_convert_without_tables
                   (recursively_convert (PyDict items))),
                recursively_convert_flat.
    + now apply (recursively_convert_without_tables (to_dict_records df)),
                to_dict_records_flat.
Qed.

(** A dict with a table under ["reports"]. *)
Lemma normalizer_idempotent_on_flat_tables_witness :
  process_context_data
    (process_context_data
       (PyDict [(lit "reports",
                 PyDataFrame (mkDataFrame [lit "id"]
                                [[PyScalar (SInt 1)]; [PyScalar (SInt 2)]]))]))
  = process_context_data
      (PyDict [(lit "reports",
                PyDataFrame (mkDataFrame [lit "id"]
                               [[PyScalar (SInt 1)]; [PyScalar (SInt 2)]]))]).
Proof.
  exact (proj2 (proj1 normalizer_idempotent_on_flat_tables
                  (PyDict [(lit "reports",
                            PyDataFrame (mkDataFrame [lit "id"]
                                           [[PyScalar (SInt 1)];
                                            [PyScalar (SInt 2)]]))])
                  eq_refl)).
Defined.
